(** * simple-map: the map screen of [app/(tabs)/index.tsx]

    A shallow embedding of the [HomePage] component (latest revision: two
    location providers, one-shot location, continuous tracking, zoom
    buttons) and the properties of its location session.

    - JavaScript numbers are IEEE 754 binary64 values: [spec_float] with
      [prec = 53] and [emax = 1024].
    - React state and refs are the fields of one record, [HomePage]; a
      handler is a function on that record.
    - The two native location modules are part of the record as well: the
      watches each of them has live, and the options they were started with.
    - An awaited call is answered by a [Replies] value chosen by the
      environment; a handler runs to completion on it.
    - Calls on [mapRef] ([animateToRegion]) drive the native map view and
      write no component state; they are left out. *)

From Stdlib Require Import ZArith List String Bool Lia.
From Stdlib Require Import SpecFloat.
Import ListNotations.

Local Open Scope string_scope.

(** ** JavaScript numbers *)

Module Number.

Definition t : Type := spec_float.

Definition prec : Z := 53.
Definition emax : Z := 1024.

(** An integer literal. *)
Definition of_Z (z : Z) : t := binary_normalize prec emax z 0 false.

Definition div (x y : t) : t := SFdiv prec emax x y.
Definition mul (x y : t) : t := SFmul prec emax x y.

(** [x < y], [x > y], [x <= y], [x >= y]; all four are false on NaN. *)
Definition lt (x y : t) : bool := SFltb x y.
Definition gt (x y : t) : bool := SFltb y x.
Definition le (x y : t) : bool := SFleb x y.
Definition ge (x y : t) : bool := SFleb y x.

(** A decimal literal [digits * 10^-scale].  Both operands are exact in
    binary64 for the literals of this program, so the correctly rounded
    quotient is the double the literal denotes. *)
Definition decimal (digits : Z) (scale : nat) : t :=
  div (of_Z digits) (of_Z (10 ^ Z.of_nat scale)).

Definition two : t := of_Z 2.

End Number.

Definition number : Type := Number.t.

(** ** Regions (react-native-maps [Region]) *)

Record Region : Type := mkRegion {
  latitude : number;
  longitude : number;
  latitudeDelta : number;
  longitudeDelta : number
}.

(** Default region set to Ukraine (Kyiv). *)
Definition DEFAULT_REGION : Region := {|
  latitude := Number.decimal 504501 4;
  longitude := Number.decimal 305234 4;
  latitudeDelta := Number.decimal 922 4;
  longitudeDelta := Number.decimal 421 4
|}.

Definition MIN_ZOOM_DELTA : number := Number.decimal 1 2.
Definition MAX_ZOOM_DELTA : number := Number.decimal 15 1.

(** The literal [0.01] of [updateRegion], [getLocation] and
    [getExpoLocation]. *)
Definition FIX_DELTA : number := Number.decimal 1 2.

(** ** Location fixes *)

Module Coords.

(** [coords] of a fix; the fields a backend may leave out are [null]. *)
Record t : Type := mk {
  latitude : number;
  longitude : number;
  altitude : option number;
  accuracy : option number;
  altitudeAccuracy : option number;
  heading : option number;
  speed : option number
}.

End Coords.

(** expo-location's [LocationObject]. *)
Record LocationObject : Type := mkLocationObject {
  coords : Coords.t;
  timestamp : number
}.

(** The position object @react-native-community/geolocation hands to a
    success callback. *)
Record GeolocationResponse : Type := mkGeolocationResponse {
  position_coords : Coords.t;
  position_timestamp : number
}.

(** The object literal built from [position] in [getRNLocation] and in the
    success callback of [Geolocation.watchPosition]. *)
Definition toLocationObject (position : GeolocationResponse) : LocationObject := {|
  coords := {|
    Coords.latitude := Coords.latitude (position_coords position);
    Coords.longitude := Coords.longitude (position_coords position);
    Coords.altitude := Coords.altitude (position_coords position);
    Coords.accuracy := Coords.accuracy (position_coords position);
    Coords.altitudeAccuracy := Coords.altitudeAccuracy (position_coords position);
    Coords.heading := Coords.heading (position_coords position);
    Coords.speed := Coords.speed (position_coords position)
  |};
  timestamp := position_timestamp position
|}.

(** ** Exceptions and promises *)

Inductive JsError : Type :=
| TypeError                 (* a call of a value that is not a function *)
| NativeError (code : Z).   (* a rejection or error callback of a native module *)

(** Error codes of @react-native-community/geolocation. *)
Definition PERMISSION_DENIED : Z := 1.
Definition POSITION_UNAVAILABLE : Z := 2.

Inductive Settled (A : Type) : Type :=
| Fulfilled (a : A)
| Rejected (e : JsError).

Arguments Fulfilled {A} a.
Arguments Rejected {A} e.

(** What the native side answers to the calls a handler awaits. *)
Record Replies : Type := mkReplies {
  (* Location.requestForegroundPermissionsAsync(): the [status] *)
  requestForegroundPermissionsAsync : Settled string;
  (* Location.getCurrentPositionAsync(...) *)
  getCurrentPositionAsync : Settled LocationObject;
  (* Location.watchPositionAsync(...): the subscription is created or not *)
  watchPositionAsync : Settled unit;
  (* Geolocation.getCurrentPosition(success, error, ...) *)
  getCurrentPosition : Settled GeolocationResponse
}.

(** ** Watches *)

Inductive Accuracy : Type :=
| Lowest | Low | Balanced | High | Highest | BestForNavigation.

(** Options object of [Location.watchPositionAsync]; milliseconds, metres. *)
Record ExpoWatchOptions : Type := mkExpoWatchOptions {
  accuracy : option Accuracy;
  timeInterval : option Z;
  distanceInterval : option Z
}.

(** Options object of [Geolocation.watchPosition]; metres, milliseconds. *)
Record RNWatchOptions : Type := mkRNWatchOptions {
  enableHighAccuracy : option bool;
  distanceFilter : option Z;
  interval : option Z
}.

(** What [watchIdRef.current] holds when it is not [null]: the number
    returned by [Geolocation.watchPosition], or the [remove] function of an
    expo subscription. *)
Inductive WatchHandle : Type :=
| WatchID (id : nat)
| SubscriptionRemove (sub : nat).

(** A live watch of one of the two native modules. *)
Inductive Watch : Type :=
| ExpoWatch (sub : nat)
| RNWatch (id : nat).

(** ** The component *)

Record HomePage : Type := mkHomePage {
  (* useState *)
  location : option LocationObject;
  errorMsg : option string;
  region : Region;
  provider : string;
  isTracking : bool;
  (* useRef *)
  watchIdRef : option WatchHandle;
  (* expo-location: live subscriptions, next subscription number *)
  expoSubscriptions : list (nat * ExpoWatchOptions);
  expoNext : nat;
  (* @react-native-community/geolocation: live watches, next watch id *)
  rnWatches : list (nat * RNWatchOptions);
  rnNext : nat
}.

Definition initialState : HomePage := {|
  location := None;
  errorMsg := None;
  region := DEFAULT_REGION;
  provider := "react-native-community";
  isTracking := false;
  watchIdRef := None;
  expoSubscriptions := [];
  expoNext := 0;
  rnWatches := [];
  rnNext := 0
|}.

Definition setLocation (v : option LocationObject) (s : HomePage) : HomePage :=
  mkHomePage v (errorMsg s) (region s) (provider s) (isTracking s)
    (watchIdRef s) (expoSubscriptions s) (expoNext s) (rnWatches s) (rnNext s).

Definition setErrorMsg (v : option string) (s : HomePage) : HomePage :=
  mkHomePage (location s) v (region s) (provider s) (isTracking s)
    (watchIdRef s) (expoSubscriptions s) (expoNext s) (rnWatches s) (rnNext s).

Definition setRegion (v : Region) (s : HomePage) : HomePage :=
  mkHomePage (location s) (errorMsg s) v (provider s) (isTracking s)
    (watchIdRef s) (expoSubscriptions s) (expoNext s) (rnWatches s) (rnNext s).

Definition setProvider (v : string) (s : HomePage) : HomePage :=
  mkHomePage (location s) (errorMsg s) (region s) v (isTracking s)
    (watchIdRef s) (expoSubscriptions s) (expoNext s) (rnWatches s) (rnNext s).

Definition setIsTracking (v : bool) (s : HomePage) : HomePage :=
  mkHomePage (location s) (errorMsg s) (region s) (provider s) v
    (watchIdRef s) (expoSubscriptions s) (expoNext s) (rnWatches s) (rnNext s).

Definition setWatchIdRef (v : option WatchHandle) (s : HomePage) : HomePage :=
  mkHomePage (location s) (errorMsg s) (region s) (provider s) (isTracking s)
    v (expoSubscriptions s) (expoNext s) (rnWatches s) (rnNext s).

(** *** The native modules *)

Definition dropWatch {O : Type} (id : nat) (l : list (nat * O)) : list (nat * O) :=
  filter (fun w => negb (Nat.eqb (fst w) id)) l.

(** [Location.watchPositionAsync(options, callback)] once it resolves: a new
    live subscription. *)
Definition expoSubscribe (o : ExpoWatchOptions) (s : HomePage) : HomePage :=
  mkHomePage (location s) (errorMsg s) (region s) (provider s) (isTracking s)
    (watchIdRef s) (expoSubscriptions s ++ [(expoNext s, o)]) (S (expoNext s))
    (rnWatches s) (rnNext s).

(** [subscription.remove()]. *)
Definition expoRemove (sub : nat) (s : HomePage) : HomePage :=
  mkHomePage (location s) (errorMsg s) (region s) (provider s) (isTracking s)
    (watchIdRef s) (dropWatch sub (expoSubscriptions s)) (expoNext s)
    (rnWatches s) (rnNext s).

(** [Geolocation.watchPosition(success, error, options)]: a new live watch
    whose id is returned. *)
Definition rnWatchPosition (o : RNWatchOptions) (s : HomePage) : HomePage :=
  mkHomePage (location s) (errorMsg s) (region s) (provider s) (isTracking s)
    (watchIdRef s) (expoSubscriptions s) (expoNext s)
    (rnWatches s ++ [(rnNext s, o)]) (S (rnNext s)).

(** [Geolocation.clearWatch(watchID)].  The module looks the argument up
    among its own watch ids; a function is none of them, and the module has
    no access to the subscriptions of expo-location. *)
Definition clearWatch (h : WatchHandle) (s : HomePage) : HomePage :=
  match h with
  | WatchID id =>
      mkHomePage (location s) (errorMsg s) (region s) (provider s) (isTracking s)
        (watchIdRef s) (expoSubscriptions s) (expoNext s)
        (dropWatch id (rnWatches s)) (rnNext s)
  | SubscriptionRemove _ => s
  end.

Definition liveWatches (s : HomePage) : list Watch :=
  map (fun w => ExpoWatch (fst w)) (expoSubscriptions s)
  ++ map (fun w => RNWatch (fst w)) (rnWatches s).

Definition isLive (w : Watch) (s : HomePage) : bool :=
  match w with
  | ExpoWatch sub => existsb (fun x => Nat.eqb (fst x) sub) (expoSubscriptions s)
  | RNWatch id => existsb (fun x => Nat.eqb (fst x) id) (rnWatches s)
  end.

(** *** Completions *)

(** How a synchronous call ends, with the state it leaves behind. *)
Inductive Completion : Type :=
| Normal (s : HomePage)
| Throw (e : JsError) (s : HomePage).

Definition state_of (c : Completion) : HomePage :=
  match c with
  | Normal s => s
  | Throw _ s => s
  end.

(** [(watchIdRef.current as () => void)()]. *)
Definition callHandle (h : WatchHandle) (s : HomePage) : Completion :=
  match h with
  | SubscriptionRemove sub => Normal (expoRemove sub s)
  | WatchID _ => Throw TypeError s
  end.

(** *** Handlers *)

(** [updateRegion] also serves for the region literals of [getLocation] and
    [getExpoLocation], which are written out the same way. *)
Definition updateRegion (newLocation : LocationObject) (s : HomePage) : HomePage :=
  let newRegion := {|
    latitude := Coords.latitude (coords newLocation);
    longitude := Coords.longitude (coords newLocation);
    latitudeDelta := FIX_DELTA;
    longitudeDelta := FIX_DELTA
  |} in
  setRegion newRegion s.

(** The async function resolves to [undefined] on every path; what it does
    is done through the setters. *)
Definition getExpoLocation (env : Replies) (s : HomePage) : HomePage :=
  match requestForegroundPermissionsAsync env with
  | Fulfilled status =>
      if negb (status =? "granted") then
        setErrorMsg (Some "Permission to access location was denied") s
      else
        match getCurrentPositionAsync env with
        | Fulfilled currentLocation =>
            let newRegion := {|
              latitude := Coords.latitude (coords currentLocation);
              longitude := Coords.longitude (coords currentLocation);
              latitudeDelta := FIX_DELTA;
              longitudeDelta := FIX_DELTA
            |} in
            setRegion newRegion (setLocation (Some currentLocation) s)
        | Rejected _ => setErrorMsg (Some "Error getting location") s
        end
  | Rejected _ => setErrorMsg (Some "Error getting location") s
  end.

Definition getRNLocation (env : Replies) : Settled LocationObject :=
  match getCurrentPosition env with
  | Fulfilled position => Fulfilled (toLocationObject position)
  | Rejected error => Rejected error
  end.

Definition getLocation (env : Replies) (s : HomePage) : HomePage :=
  if provider s =? "expo" then
    (* currentLocation is undefined: [if (!currentLocation) return] *)
    getExpoLocation env s
  else
    match getRNLocation env with
    | Fulfilled currentLocation =>
        let newRegion := {|
          latitude := Coords.latitude (coords currentLocation);
          longitude := Coords.longitude (coords currentLocation);
          latitudeDelta := FIX_DELTA;
          longitudeDelta := FIX_DELTA
        |} in
        setRegion newRegion (setLocation (Some currentLocation) s)
    | Rejected _ => setErrorMsg (Some "Error getting location") s
    end.

Definition zoomIn (s : HomePage) : HomePage :=
  if Number.gt (latitudeDelta (region s)) MIN_ZOOM_DELTA then
    let newRegion := {|
      latitude := latitude (region s);
      longitude := longitude (region s);
      latitudeDelta := Number.div (latitudeDelta (region s)) Number.two;
      longitudeDelta := Number.div (longitudeDelta (region s)) Number.two
    |} in
    setRegion newRegion s
  else s.

Definition zoomOut (s : HomePage) : HomePage :=
  if Number.lt (latitudeDelta (region s)) MAX_ZOOM_DELTA then
    let newRegion := {|
      latitude := latitude (region s);
      longitude := longitude (region s);
      latitudeDelta := Number.mul (latitudeDelta (region s)) Number.two;
      longitudeDelta := Number.mul (longitudeDelta (region s)) Number.two
    |} in
    setRegion newRegion s
  else s.

Definition expoWatchOptions : ExpoWatchOptions := {|
  accuracy := Some Balanced;
  timeInterval := Some 5000%Z;
  distanceInterval := Some 10%Z
|}.

Definition rnWatchOptions : RNWatchOptions := {|
  enableHighAccuracy := Some true;
  distanceFilter := Some 10%Z;
  interval := Some 5000%Z
|}.

(** The callback given to [Location.watchPositionAsync]. *)
Definition onExpoLocation (newLocation : LocationObject) (s : HomePage) : HomePage :=
  updateRegion newLocation (setLocation (Some newLocation) s).

(** The success and error callbacks given to [Geolocation.watchPosition]. *)
Definition onRNPosition (position : GeolocationResponse) (s : HomePage) : HomePage :=
  let newLocation := toLocationObject position in
  updateRegion newLocation (setLocation (Some newLocation) s).

Definition onRNError (s : HomePage) : HomePage :=
  setErrorMsg (Some "Error tracking location") s.

Definition startTracking (env : Replies) (s : HomePage) : HomePage :=
  if provider s =? "expo" then
    match requestForegroundPermissionsAsync env with
    | Fulfilled status =>
        if negb (status =? "granted") then
          setErrorMsg (Some "Permission to access location was denied") s
        else
          match watchPositionAsync env with
          | Fulfilled _ =>
              let remove := SubscriptionRemove (expoNext s) in
              setIsTracking true
                (setWatchIdRef (Some remove) (expoSubscribe expoWatchOptions s))
          | Rejected _ => setErrorMsg (Some "Error starting location tracking") s
          end
    | Rejected _ => setErrorMsg (Some "Error starting location tracking") s
    end
  else
    let watchId := WatchID (rnNext s) in
    setIsTracking true
      (setWatchIdRef (Some watchId) (rnWatchPosition rnWatchOptions s)).

(** [stopTracking] as defined in a render whose [provider] is
    [closureProvider]. *)
Definition stopTrackingIn (closureProvider : string) (s : HomePage) : Completion :=
  match watchIdRef s with
  | Some h =>
      if closureProvider =? "expo" then
        match callHandle h s with
        | Normal s1 => Normal (setIsTracking false (setWatchIdRef None s1))
        | Throw e s1 => Throw e s1
        end
      else
        Normal (setIsTracking false (setWatchIdRef None (clearWatch h s)))
  | None => Normal (setIsTracking false s)
  end.

(** [stopTracking] of the current render. *)
Definition stopTracking (s : HomePage) : Completion :=
  stopTrackingIn (provider s) s.

Definition toggleProvider (s : HomePage) : HomePage :=
  setProvider (if provider s =? "expo" then "react-native-community" else "expo") s.

(** [useEffect(..., [provider])]: runs after the first render and after every
    render in which [provider] has changed, with the handlers of that
    render. *)
Definition providerEffect (env : Replies) (s : HomePage) : Completion :=
  if isTracking s then
    match stopTracking s with
    | Normal s1 => Normal (startTracking env s1)
    | Throw e s1 => Throw e s1
    end
  else Normal (getLocation env s).

(** [useEffect(() => () => stopTracking(), [])]: the cleanup keeps the
    [stopTracking] of the first render. *)
Definition cleanup (s : HomePage) : Completion :=
  stopTrackingIn (provider initialState) s.

(** The screen after its first render and the effect that follows it. *)
Definition mount (env : Replies) : HomePage :=
  state_of (providerEffect env initialState).

(** ** Events *)

Inductive Event : Type :=
| GetLocation (env : Replies)          (* the location button *)
| StartTracking (env : Replies)
| StopTracking
| PressTracking (env : Replies)        (* isTracking ? stopTracking() : startTracking() *)
| ToggleProvider (env : Replies)       (* toggleProvider, then the effect on [provider] *)
| ZoomIn
| ZoomOut
| RegionChangeComplete (r : Region)    (* onRegionChangeComplete={setRegion} *)
| ExpoLocation (sub : nat) (newLocation : LocationObject)
| RNPosition (id : nat) (position : GeolocationResponse)
| RNError (id : nat)
| Unmount.

(** One event of the screen.  A native module calls back only the watches it
    has live.  The buttons are rendered only while [errorMsg] is null; [step]
    does not enforce that, so [run] covers every sequence the screen allows
    and more. *)
Definition step (e : Event) (s : HomePage) : Completion :=
  match e with
  | GetLocation env => Normal (getLocation env s)
  | StartTracking env => Normal (startTracking env s)
  | StopTracking => stopTracking s
  | PressTracking env =>
      if isTracking s then stopTracking s else Normal (startTracking env s)
  | ToggleProvider env => providerEffect env (toggleProvider s)
  | ZoomIn => Normal (zoomIn s)
  | ZoomOut => Normal (zoomOut s)
  | RegionChangeComplete r => Normal (setRegion r s)
  | ExpoLocation sub newLocation =>
      Normal (if isLive (ExpoWatch sub) s then onExpoLocation newLocation s else s)
  | RNPosition id position =>
      Normal (if isLive (RNWatch id) s then onRNPosition position s else s)
  | RNError id =>
      Normal (if isLive (RNWatch id) s then onRNError s else s)
  | Unmount => cleanup s
  end.

Fixpoint run (es : list Event) (s : HomePage) : HomePage :=
  match es with
  | [] => s
  | e :: es' => run es' (state_of (step e s))
  end.

(** ** Vocabulary of the specification *)

(** The primary service is the permission-gated backend whose watch is
    filtered by 5000 ms / 10 m, expo-location; the secondary one is the
    callback-based backend with the 15000 ms one-shot timeout,
    @react-native-community/geolocation. *)
Definition PrimaryService : string := "expo".
Definition SecondaryService : string := "react-native-community".

(** [watchHandle] is non-null iff [isTracking]. *)
Definition handle_iff_tracking (s : HomePage) : Prop :=
  watchIdRef s <> None <-> isTracking s = true.

(** The same, as an equation between booleans. *)
Definition tracked (s : HomePage) : Prop :=
  isTracking s = match watchIdRef s with Some _ => true | None => false end.

(** Frame of a handler that writes [region] only. *)
Definition sameButRegion (s s' : HomePage) : Prop :=
  location s' = location s /\ errorMsg s' = errorMsg s
  /\ provider s' = provider s /\ isTracking s' = isTracking s
  /\ watchIdRef s' = watchIdRef s
  /\ expoSubscriptions s' = expoSubscriptions s /\ expoNext s' = expoNext s
  /\ rnWatches s' = rnWatches s /\ rnNext s' = rnNext s.



(** The region a fix recenters the map on. *)
Definition centeredOn (loc : LocationObject) : Region := {|
  latitude := Coords.latitude (coords loc);
  longitude := Coords.longitude (coords loc);
  latitudeDelta := Number.decimal 1 2;
  longitudeDelta := Number.decimal 1 2
|}.

(** ** Sample data *)

Definition at_ (lat lon : Z) : Coords.t := {|
  Coords.latitude := Number.of_Z lat;
  Coords.longitude := Number.of_Z lon;
  Coords.altitude := None;
  Coords.accuracy := Some (Number.of_Z 5);
  Coords.altitudeAccuracy := None;
  Coords.heading := None;
  Coords.speed := None
|}.

Definition fix1 : LocationObject := {| coords := at_ 1 1; timestamp := Number.of_Z 1000 |}.
Definition fix2 : LocationObject := {| coords := at_ 2 2; timestamp := Number.of_Z 2000 |}.
Definition fix3 : LocationObject := {| coords := at_ 3 3; timestamp := Number.of_Z 3000 |}.
Definition position1 : GeolocationResponse :=
  {| position_coords := at_ 1 1; position_timestamp := Number.of_Z 1000 |}.
Definition position2 : GeolocationResponse :=
  {| position_coords := at_ 2 2; position_timestamp := Number.of_Z 2000 |}.
Definition position3 : GeolocationResponse :=
  {| position_coords := at_ 3 3; position_timestamp := Number.of_Z 3000 |}.

(** A region whose spans are at the upper bound and beyond. *)
Definition wideRegion : Region := {|
  latitude := Number.of_Z 50;
  longitude := Number.of_Z 30;
  latitudeDelta := Number.of_Z 2;
  longitudeDelta := Number.of_Z 3
|}.

(** Every permission is granted and every request succeeds. *)
Definition granted : Replies := {|
  requestForegroundPermissionsAsync := Fulfilled "granted";
  getCurrentPositionAsync := Fulfilled fix1;
  watchPositionAsync := Fulfilled tt;
  getCurrentPosition := Fulfilled position1
|}.

(** The permission prompt is declined. *)
Definition declined : Replies := {|
  requestForegroundPermissionsAsync := Fulfilled "denied";
  getCurrentPositionAsync := Rejected (NativeError 0);
  watchPositionAsync := Rejected (NativeError 0);
  getCurrentPosition := Rejected (NativeError PERMISSION_DENIED)
|}.


(** Tracking on the primary service, one fix received:
    mount, switch to expo, start tracking, a fix arrives. *)
Definition trackingOnPrimary : HomePage :=
  run [ToggleProvider granted; StartTracking granted; ExpoLocation 0 fix2]
      (mount granted).

(** Tracking on the service the screen starts with. *)
Definition trackingOnSecondary : HomePage :=
  run [StartTracking granted] (mount granted).

(** ** What the render reads *)

(** [disabled] of the zoom-in and of the zoom-out button. *)
Definition zoomInDisabled (s : HomePage) : bool :=
  Number.le (latitudeDelta (region s)) MIN_ZOOM_DELTA.

Definition zoomOutDisabled (s : HomePage) : bool :=
  Number.ge (latitudeDelta (region s)) MAX_ZOOM_DELTA.

(** [errorMsg ? <Text>...</Text> : <View>map and buttons</View>]: the error
    text replaces the map when [errorMsg] is a non-empty string. *)
Definition showsError (s : HomePage) : bool :=
  match errorMsg s with
  | Some m => negb (m =? "")
  | None => false
  end.

(** The strings [setErrorMsg] is called with. *)
Definition errorMessages : list string :=
  [ "Permission to access location was denied";
    "Error getting location";
    "Error tracking location";
    "Error starting location tracking" ].

(** Provider values the handlers produce. *)
Definition knownProvider (s : HomePage) : Prop :=
  provider s = "expo" \/ provider s = "react-native-community".

(** A native module numbers its watches upwards: every live watch has a
    number below the next one to be given out. *)
Definition freshIds (s : HomePage) : Prop :=
  Forall (fun w => fst w < expoNext s) (expoSubscriptions s)
  /\ Forall (fun w => fst w < rnNext s) (rnWatches s).

(** A handler that leaves the tracking session alone. *)
Definition sameSession (s s' : HomePage) : Prop :=
  provider s' = provider s /\ isTracking s' = isTracking s
  /\ watchIdRef s' = watchIdRef s
  /\ expoSubscriptions s' = expoSubscriptions s /\ expoNext s' = expoNext s
  /\ rnWatches s' = rnWatches s /\ rnNext s' = rnNext s.

(** A binary64 value with a full 53-bit mantissa whose half and double are
    again such values. *)
Definition normalSpan (x : number) : Prop :=
  match x with
  | S754_finite false m e =>
      digits2_pos m = 53%positive /\ (-1072 <= e <= 970)%Z
  | _ => False
  end.

Definition halfOf (x : number) : number :=
  match x with
  | S754_finite sx m e => S754_finite sx m (e - 1)
  | _ => x
  end.

Definition doubleOf (x : number) : number :=
  match x with
  | S754_finite sx m e => S754_finite sx m (e + 1)
  | _ => x
  end.

(** The empty region of a state that has lost its spans to NaN. *)
Definition nanRegion : Region := {|
  latitude := Number.of_Z 50;
  longitude := Number.of_Z 30;
  latitudeDelta := S754_nan;
  longitudeDelta := S754_nan
|}.


(** A success callback of one of the two watch subscriptions. *)
Definition isFix (e : Event) : bool :=
  match e with
  | ExpoLocation _ _ | RNPosition _ _ => true
  | _ => false
  end.

(** * Properties *)

(** ** Binary64 comparison *)

Section Comparison.

Lemma SFcompare_antisym (x y : spec_float) :
  SFcompare y x = option_map CompOpp (SFcompare x y).
Proof.
  destruct x as [sx|sx| |sx mx ex], y as [sy|sy| |sy my ey]; simpl;
    try reflexivity;
    try (destruct sx; reflexivity);
    try (destruct sy; reflexivity);
    try (destruct sx, sy; reflexivity).
  assert (Hm : Pos.compare_cont Eq my mx = CompOpp (Pos.compare_cont Eq mx my))
    by (symmetry; apply (Pos.compare_cont_antisym mx my Eq)).
  destruct sx, sy; simpl; try reflexivity;
    rewrite (Z.compare_antisym ex ey);
    destruct (Z.compare ex ey); simpl; try reflexivity;
    rewrite Hm; try rewrite CompOpp_involutive; reflexivity.
Qed.

Lemma le_not_gt (x y : number) :
  Number.le x y = true -> Number.gt x y = false.
Proof.
  unfold Number.le, Number.gt, SFleb, SFltb.
  rewrite (SFcompare_antisym x y).
  destruct (SFcompare x y) as [[ | | ]|]; simpl; congruence.
Qed.

Lemma ge_not_lt (x y : number) :
  Number.ge x y = true -> Number.lt x y = false.
Proof.
  unfold Number.ge, Number.lt, SFleb, SFltb.
  rewrite (SFcompare_antisym y x).
  destruct (SFcompare y x) as [[ | | ]|]; simpl; congruence.
Qed.

(** A NaN span is neither above nor at or below a bound. *)
Lemma nan_unordered (y : number) :
  Number.gt S754_nan y = false /\ Number.le S754_nan y = false
  /\ Number.lt S754_nan y = false /\ Number.ge S754_nan y = false.
Proof. destruct y; repeat split; reflexivity. Qed.

End Comparison.

(** The literals of the source, as bit patterns of doubles. *)
Example MIN_ZOOM_DELTA_bits :
  MIN_ZOOM_DELTA = S754_finite false 5764607523034235 (-59).
Proof. vm_compute. reflexivity. Qed.

Example MAX_ZOOM_DELTA_bits :
  MAX_ZOOM_DELTA = S754_finite false 6755399441055744 (-52).
Proof. vm_compute. reflexivity. Qed.

Example DEFAULT_REGION_bits :
  DEFAULT_REGION = {|
    latitude := S754_finite false 7100220361275133 (-47);
    longitude := S754_finite false 8591573304130037 (-48);
    latitudeDelta := S754_finite false 6643710170296956 (-56);
    longitudeDelta := S754_finite false 6067249417993532 (-57)
  |}.
Proof. vm_compute. reflexivity. Qed.

(** ** Zoom *)

(** C5. For every region whose [latitudeDelta] is above [MIN_ZOOM_DELTA],
    [zoomIn] divides both spans by two and keeps everything else; for every
    region whose [latitudeDelta] is at or below [MIN_ZOOM_DELTA], [zoomIn]
    leaves the region, and the whole state, as it is. *)
Theorem zoomIn_halves_above_min (s : HomePage) :
  (Number.gt (latitudeDelta (region s)) MIN_ZOOM_DELTA = true ->
     zoomIn s =
     setRegion {| latitude := latitude (region s);
                  longitude := longitude (region s);
                  latitudeDelta := Number.div (latitudeDelta (region s)) Number.two;
                  longitudeDelta := Number.div (longitudeDelta (region s)) Number.two |} s)
  /\ (Number.le (latitudeDelta (region s)) MIN_ZOOM_DELTA = true ->
     zoomIn s = s).
Proof.
  split; intros H; unfold zoomIn.
  - rewrite H. reflexivity.
  - rewrite (le_not_gt _ _ H). reflexivity.
Qed.

Lemma zoomIn_halves_above_min_witness :
  region (zoomIn initialState) =
    {| latitude := latitude DEFAULT_REGION;
       longitude := longitude DEFAULT_REGION;
       latitudeDelta := S754_finite false 6643710170296956 (-57);
       longitudeDelta := S754_finite false 6067249417993532 (-58) |}
  /\ zoomIn (mount granted) = mount granted.
Proof.
  destruct (zoomIn_halves_above_min initialState) as [Habove _].
  destruct (zoomIn_halves_above_min (mount granted)) as [_ Hbelow].
  split.
  - rewrite Habove by (vm_compute; reflexivity). vm_compute. reflexivity.
  - apply Hbelow. vm_compute. reflexivity.
Defined.

(** C6. For every region whose [latitudeDelta] is below [MAX_ZOOM_DELTA],
    [zoomOut] multiplies both spans by two and keeps everything else; for
    every region whose [latitudeDelta] is at or above [MAX_ZOOM_DELTA],
    [zoomOut] leaves the region, and the whole state, as it is. *)
Theorem zoomOut_doubles_below_max (s : HomePage) :
  (Number.lt (latitudeDelta (region s)) MAX_ZOOM_DELTA = true ->
     zoomOut s =
     setRegion {| latitude := latitude (region s);
                  longitude := longitude (region s);
                  latitudeDelta := Number.mul (latitudeDelta (region s)) Number.two;
                  longitudeDelta := Number.mul (longitudeDelta (region s)) Number.two |} s)
  /\ (Number.ge (latitudeDelta (region s)) MAX_ZOOM_DELTA = true ->
     zoomOut s = s).
Proof.
  split; intros H; unfold zoomOut.
  - rewrite H. reflexivity.
  - rewrite (ge_not_lt _ _ H). reflexivity.
Qed.

Lemma zoomOut_doubles_below_max_witness :
  region (zoomOut initialState) =
    {| latitude := latitude DEFAULT_REGION;
       longitude := longitude DEFAULT_REGION;
       latitudeDelta := S754_finite false 6643710170296956 (-55);
       longitudeDelta := S754_finite false 6067249417993532 (-56) |}
  /\ zoomOut (setRegion wideRegion initialState) = setRegion wideRegion initialState.
Proof.
  destruct (zoomOut_doubles_below_max initialState) as [Hbelow _].
  destruct (zoomOut_doubles_below_max (setRegion wideRegion initialState))
    as [_ Habove].
  split.
  - rewrite Hbelow by (vm_compute; reflexivity). vm_compute. reflexivity.
  - apply Habove. vm_compute. reflexivity.
Defined.

Lemma sameButRegion_refl (s : HomePage) : sameButRegion s s.
Proof. repeat split. Qed.

Lemma sameButRegion_setRegion (r : Region) (s : HomePage) :
  sameButRegion s (setRegion r s).
Proof. repeat split. Qed.

(** C10. [zoomIn] and [zoomOut] keep the centre of the region, its
    [latitude] and [longitude], whatever the region is; they write nothing
    but the region. *)
Theorem zoom_keeps_center (s : HomePage) :
  (latitude (region (zoomIn s)) = latitude (region s)
   /\ longitude (region (zoomIn s)) = longitude (region s)
   /\ sameButRegion s (zoomIn s))
  /\ (latitude (region (zoomOut s)) = latitude (region s)
   /\ longitude (region (zoomOut s)) = longitude (region s)
   /\ sameButRegion s (zoomOut s)).
Proof.
  unfold zoomIn, zoomOut.
  destruct (Number.gt (latitudeDelta (region s)) MIN_ZOOM_DELTA),
           (Number.lt (latitudeDelta (region s)) MAX_ZOOM_DELTA);
    simpl; repeat split.
Qed.

(** ** Fixes *)

Lemma centeredOn_toLocationObject (position : GeolocationResponse) :
  centeredOn (toLocationObject position) =
  {| latitude := Coords.latitude (position_coords position);
     longitude := Coords.longitude (position_coords position);
     latitudeDelta := Number.decimal 1 2;
     longitudeDelta := Number.decimal 1 2 |}.
Proof. reflexivity. Qed.

(** The object built from a position has the coordinates and the timestamp
    of the position, field for field. *)
Lemma toLocationObject_fields (position : GeolocationResponse) :
  toLocationObject position =
  {| coords := position_coords position;
     timestamp := position_timestamp position |}.
Proof. destruct position as [[lat lon alt acc altAcc hd sp] t]. reflexivity. Qed.

Lemma getLocation_expo_success (env : Replies) (s : HomePage) (loc : LocationObject) :
  provider s = "expo" ->
  requestForegroundPermissionsAsync env = Fulfilled "granted" ->
  getCurrentPositionAsync env = Fulfilled loc ->
  getLocation env s = setRegion (centeredOn loc) (setLocation (Some loc) s).
Proof.
  intros Hp Hperm Hpos. unfold getLocation, getExpoLocation.
  rewrite Hp, Hperm, Hpos. reflexivity.
Qed.

Lemma getLocation_rn_success (env : Replies) (s : HomePage)
      (position : GeolocationResponse) :
  (provider s =? "expo") = false ->
  getCurrentPosition env = Fulfilled position ->
  getLocation env s =
  setRegion (centeredOn (toLocationObject position))
            (setLocation (Some (toLocationObject position)) s).
Proof.
  intros Hp Hpos. unfold getLocation, getRNLocation.
  rewrite Hp, Hpos. reflexivity.
Qed.

(** C2. Every successful fix, from [getLocation] on either provider or from
    the callback of a live watch of either provider, is stored in [location]
    and puts the region on the latitude and longitude of the fix with both
    spans 0.01, whatever the region was before. *)
Theorem fix_sets_location_and_region (env : Replies) (s : HomePage) :
  (forall loc,
      provider s = "expo" ->
      requestForegroundPermissionsAsync env = Fulfilled "granted" ->
      getCurrentPositionAsync env = Fulfilled loc ->
      location (getLocation env s) = Some loc
      /\ region (getLocation env s) = centeredOn loc)
  /\ (forall position,
      (provider s =? "expo") = false ->
      getCurrentPosition env = Fulfilled position ->
      location (getLocation env s)
        = Some {| coords := position_coords position;
                  timestamp := position_timestamp position |}
      /\ region (getLocation env s)
        = {| latitude := Coords.latitude (position_coords position);
             longitude := Coords.longitude (position_coords position);
             latitudeDelta := Number.decimal 1 2;
             longitudeDelta := Number.decimal 1 2 |})
  /\ (forall sub loc,
      isLive (ExpoWatch sub) s = true ->
      location (state_of (step (ExpoLocation sub loc) s)) = Some loc
      /\ region (state_of (step (ExpoLocation sub loc) s)) = centeredOn loc)
  /\ (forall id position,
      isLive (RNWatch id) s = true ->
      location (state_of (step (RNPosition id position) s))
        = Some {| coords := position_coords position;
                  timestamp := position_timestamp position |}
      /\ region (state_of (step (RNPosition id position) s))
        = {| latitude := Coords.latitude (position_coords position);
             longitude := Coords.longitude (position_coords position);
             latitudeDelta := Number.decimal 1 2;
             longitudeDelta := Number.decimal 1 2 |}).
Proof.
  split; [| split; [| split]].
  - intros loc Hp Hperm Hpos.
    rewrite (getLocation_expo_success env s loc Hp Hperm Hpos).
    split; reflexivity.
  - intros position Hp Hpos.
    rewrite (getLocation_rn_success env s position Hp Hpos).
    cbn [location region setRegion setLocation].
    rewrite <- (toLocationObject_fields position).
    split; reflexivity.
  - intros sub loc Hlive. cbn [step state_of]. rewrite Hlive.
    split; reflexivity.
  - intros id position Hlive. cbn [step state_of]. rewrite Hlive.
    unfold onRNPosition, updateRegion.
    cbn [location region setRegion setLocation].
    rewrite <- (toLocationObject_fields position).
    split; reflexivity.
Qed.

Lemma fix_sets_location_and_region_witness :
  (location (getLocation granted (toggleProvider initialState)) = Some fix1
   /\ region (getLocation granted (toggleProvider initialState)) = centeredOn fix1)
  /\ (location (getLocation granted (zoomOut initialState))
        = Some {| coords := at_ 1 1; timestamp := Number.of_Z 1000 |}
      /\ region (getLocation granted (zoomOut initialState))
        = {| latitude := Number.of_Z 1;
             longitude := Number.of_Z 1;
             latitudeDelta := Number.decimal 1 2;
             longitudeDelta := Number.decimal 1 2 |})
  /\ (location (state_of (step (ExpoLocation 0 fix1) trackingOnPrimary)) = Some fix1
      /\ region (state_of (step (ExpoLocation 0 fix1) trackingOnPrimary))
        = centeredOn fix1)
  /\ (location (state_of (step (RNPosition 0 position2) trackingOnSecondary))
        = Some {| coords := at_ 2 2; timestamp := Number.of_Z 2000 |}
      /\ region (state_of (step (RNPosition 0 position2) trackingOnSecondary))
        = {| latitude := Number.of_Z 2;
             longitude := Number.of_Z 2;
             latitudeDelta := Number.decimal 1 2;
             longitudeDelta := Number.decimal 1 2 |}).
Proof.
  split; [| split; [| split]].
  - apply (fix_sets_location_and_region granted (toggleProvider initialState));
      reflexivity.
  - destruct (fix_sets_location_and_region granted (zoomOut initialState))
      as (_ & Hrn & _ & _).
    exact (Hrn position1 eq_refl eq_refl).
  - apply (fix_sets_location_and_region granted trackingOnPrimary).
    vm_compute. reflexivity.
  - destruct (fix_sets_location_and_region granted trackingOnSecondary)
      as (_ & _ & _ & Hwatch).
    exact (Hwatch 0 position2 eq_refl).
Defined.

(** ** Failures of a one-shot request *)


(** Whatever the failure, the fix and the region on screen stay. *)
Lemma getLocation_failure_keeps_fix (env : Replies) (s : HomePage) :
  errorMsg (getLocation env s) <> errorMsg s ->
  location (getLocation env s) = location s
  /\ region (getLocation env s) = region s.
Proof.
  unfold getLocation, getExpoLocation, getRNLocation.
  destruct (provider s =? "expo").
  - destruct (requestForegroundPermissionsAsync env) as [status|e]; simpl.
    + destruct (negb (status =? "granted")); simpl.
      * intros _. split; reflexivity.
      * destruct (getCurrentPositionAsync env); simpl; intros H;
          [exfalso; apply H; reflexivity | split; reflexivity].
    + intros _. split; reflexivity.
  - destruct (getCurrentPosition env); simpl; intros H;
      [exfalso; apply H; reflexivity | split; reflexivity].
Qed.




(** ** Defaults *)

(** C8, as the code has it.  The state of the first render: no fix, no
    error, the default region, not tracking, no watch handle, and the
    react-native-community provider, the secondary service, active. *)
Theorem initial_defaults :
  location initialState = None
  /\ errorMsg initialState = None
  /\ isTracking initialState = false
  /\ watchIdRef initialState = None
  /\ provider initialState = SecondaryService
  /\ region initialState = DEFAULT_REGION
  /\ liveWatches initialState = [].
Proof. repeat split. Qed.

(** C8, as stated, fails: the provider active at mount is not the primary
    service. *)
Lemma initial_provider_not_primary :
  ~ (location initialState = None
     /\ errorMsg initialState = None
     /\ isTracking initialState = false
     /\ watchIdRef initialState = None
     /\ provider initialState = PrimaryService).
Proof. intros (_ & _ & _ & _ & H). discriminate H. Qed.

(** ** Watch options *)

(** C9, as the code has it.  A watch started on the secondary service is
    registered with high accuracy, a 10 m distance filter and a 5000 ms
    interval; no expo subscription is made. *)
Theorem secondary_watch_options (env : Replies) (s : HomePage) :
  provider s = SecondaryService ->
  rnWatches (startTracking env s) =
    (rnWatches s ++ [(rnNext s, {| enableHighAccuracy := Some true;
                                   distanceFilter := Some 10%Z;
                                   interval := Some 5000%Z |})])%list
  /\ expoSubscriptions (startTracking env s) = expoSubscriptions s
  /\ watchIdRef (startTracking env s) = Some (WatchID (rnNext s))
  /\ isTracking (startTracking env s) = true.
Proof.
  intros Hp. unfold startTracking. rewrite Hp. simpl. repeat split.
Qed.

Lemma secondary_watch_options_witness :
  rnWatches (startTracking granted initialState) =
    [(0, {| enableHighAccuracy := Some true;
            distanceFilter := Some 10%Z;
            interval := Some 5000%Z |})]
  /\ expoSubscriptions (startTracking granted initialState) = []
  /\ watchIdRef (startTracking granted initialState) = Some (WatchID 0)
  /\ isTracking (startTracking granted initialState) = true.
Proof.
  apply (secondary_watch_options granted initialState). reflexivity.
Defined.

(** C9, as stated, fails: the watch of the secondary service carries a time
    interval next to its distance filter. *)
Lemma secondary_watch_has_interval :
  provider initialState = SecondaryService
  /\ exists o,
       rnWatches (startTracking granted initialState) = [(0, o)]
       /\ distanceFilter o = Some 10%Z
       /\ interval o <> None.
Proof.
  split; [reflexivity |].
  exists rnWatchOptions. repeat split. discriminate.
Qed.

(** ** The watch handle and [isTracking] *)

Lemma tracked_iff (s : HomePage) : tracked s <-> handle_iff_tracking s.
Proof.
  unfold tracked, handle_iff_tracking.
  destruct (watchIdRef s), (isTracking s); intuition congruence.
Qed.

Lemma getLocation_tracked (env : Replies) (s : HomePage) :
  tracked s -> tracked (getLocation env s).
Proof.
  unfold tracked, getLocation, getExpoLocation, getRNLocation.
  intros H.
  destruct (provider s =? "expo");
    [destruct (requestForegroundPermissionsAsync env) as [status|];
     [destruct (negb (status =? "granted"));
      [| destruct (getCurrentPositionAsync env)] |]
    | destruct (getCurrentPosition env)];
    exact H.
Qed.

Lemma startTracking_tracked (env : Replies) (s : HomePage) :
  tracked s -> tracked (startTracking env s).
Proof.
  unfold tracked, startTracking. intros H.
  destruct (provider s =? "expo");
    [destruct (requestForegroundPermissionsAsync env) as [status|];
     [destruct (negb (status =? "granted"));
      [| destruct (watchPositionAsync env)] |] |];
    first [exact H | reflexivity].
Qed.

Lemma stopTrackingIn_tracked (p : string) (s : HomePage) :
  tracked s -> tracked (state_of (stopTrackingIn p s)).
Proof.
  unfold tracked, stopTrackingIn, callHandle, clearWatch. intros H.
  destruct (watchIdRef s) as [[id|sub]|] eqn:Hw; destruct (p =? "expo");
    simpl; rewrite ?Hw; first [reflexivity | exact H].
Qed.

Lemma toggleProvider_tracked (s : HomePage) :
  tracked s -> tracked (toggleProvider s).
Proof. intros H. exact H. Qed.

Lemma providerEffect_tracked (env : Replies) (s : HomePage) :
  tracked s -> tracked (state_of (providerEffect env s)).
Proof.
  intros H. unfold providerEffect.
  destruct (isTracking s).
  - pose proof (stopTrackingIn_tracked (provider s) s H) as Hs.
    unfold stopTracking.
    destruct (stopTrackingIn (provider s) s) as [s1|e s1]; simpl in *.
    + apply startTracking_tracked. exact Hs.
    + exact Hs.
  - apply getLocation_tracked. exact H.
Qed.

Lemma zoom_tracked (s : HomePage) :
  tracked s -> tracked (zoomIn s) /\ tracked (zoomOut s).
Proof.
  unfold zoomIn, zoomOut. intros H.
  destruct (Number.gt _ _), (Number.lt _ _); split; exact H.
Qed.

Lemma step_tracked (e : Event) (s : HomePage) :
  tracked s -> tracked (state_of (step e s)).
Proof.
  intros H. destruct e; cbn [step].
  - apply getLocation_tracked, H.
  - apply startTracking_tracked, H.
  - apply stopTrackingIn_tracked, H.
  - destruct (isTracking s) eqn:Ht.
    + apply stopTrackingIn_tracked, H.
    + apply startTracking_tracked, H.
  - apply providerEffect_tracked, toggleProvider_tracked, H.
  - apply zoom_tracked, H.
  - apply zoom_tracked, H.
  - exact H.
  - cbn [state_of]. destruct (isLive (ExpoWatch sub) s); exact H.
  - cbn [state_of]. destruct (isLive (RNWatch id) s); exact H.
  - cbn [state_of]. destruct (isLive (RNWatch id) s); exact H.
  - apply stopTrackingIn_tracked, H.
Qed.

Lemma run_tracked (es : list Event) (s : HomePage) :
  tracked s -> tracked (run es s).
Proof.
  revert s. induction es as [|e es IH]; intros s H; simpl.
  - exact H.
  - apply IH, step_tracked, H.
Qed.

Lemma mount_tracked (env : Replies) : tracked (mount env).
Proof. apply providerEffect_tracked. reflexivity. Qed.

(** C4. In every state the screen reaches from its mount, by any sequence
    of one-shot requests, starts and stops of tracking, provider toggles,
    zooms, region changes, watch callbacks and the unmount cleanup, the
    watch handle is non-null exactly when [isTracking] is true. *)
Theorem handle_iff_tracking_reachable (env : Replies) (es : list Event) :
  handle_iff_tracking (run es (mount env)).
Proof. apply tracked_iff, run_tracked, mount_tracked. Qed.

Example handle_iff_tracking_sample :
  watchIdRef trackingOnPrimary = Some (SubscriptionRemove 0)
  /\ isTracking trackingOnPrimary = true
  /\ watchIdRef (run [StopTracking] trackingOnPrimary) = None
  /\ isTracking (run [StopTracking] trackingOnPrimary) = false.
Proof. vm_compute. repeat split. Qed.

(** ** Stopping a watch *)

Lemma dropWatch_not_live {O : Type} (id : nat) (l : list (nat * O)) :
  existsb (fun x => Nat.eqb (fst x) id) (dropWatch id l) = false.
Proof.
  induction l as [|[i o] l IH]; simpl.
  - reflexivity.
  - destruct (Nat.eqb i id) eqn:E; simpl.
    + exact IH.
    + rewrite E. exact IH.
Qed.

(** X7. Stopped under the provider that started it, a watch is released:
    [stopTracking] returns, the watch is no longer live, the handle is null
    and [isTracking] is false. *)
Lemma stopTracking_releases_own_watch (s : HomePage) :
  (forall sub, provider s = "expo" ->
               watchIdRef s = Some (SubscriptionRemove sub) ->
               exists s', stopTracking s = Normal s'
                          /\ isLive (ExpoWatch sub) s' = false
                          /\ watchIdRef s' = None /\ isTracking s' = false)
  /\ (forall id, (provider s =? "expo") = false ->
                 watchIdRef s = Some (WatchID id) ->
                 exists s', stopTracking s = Normal s'
                            /\ isLive (RNWatch id) s' = false
                            /\ watchIdRef s' = None /\ isTracking s' = false).
Proof.
  split.
  - intros sub Hp Hw. unfold stopTracking, stopTrackingIn.
    rewrite Hw, Hp. simpl. eexists. split; [reflexivity |].
    simpl. rewrite dropWatch_not_live. repeat split.
  - intros id Hp Hw. unfold stopTracking, stopTrackingIn.
    rewrite Hw, Hp. simpl. eexists. split; [reflexivity |].
    simpl. rewrite dropWatch_not_live. repeat split.
Qed.

(** X8. [stopTracking] throws exactly on a numeric watch id under the expo
    provider; the error is a [TypeError] and the state is left as it was
    found. *)
Lemma stopTrackingIn_throws (p : string) (s : HomePage) (e : JsError) (s' : HomePage) :
  stopTrackingIn p s = Throw e s' <->
  (p =? "expo") = true /\ (exists id, watchIdRef s = Some (WatchID id))
  /\ e = TypeError /\ s' = s.
Proof.
  unfold stopTrackingIn, callHandle.
  destruct (watchIdRef s) as [[id|sub]|]; destruct (p =? "expo"); split;
    try discriminate;
    try (intros (H & _); discriminate H);
    try (intros (_ & [i H] & _); discriminate H).
  - intros H. inversion H. repeat split. exists id. reflexivity.
  - intros (_ & _ & -> & ->). reflexivity.
Qed.

(** X9. When [stopTracking] returns, a second call returns too and changes
    nothing. *)
Lemma stopTrackingIn_idempotent (p : string) (s s' : HomePage) :
  stopTrackingIn p s = Normal s' -> stopTrackingIn p s' = Normal s'.
Proof.
  unfold stopTrackingIn, callHandle, clearWatch.
  destruct (watchIdRef s) as [[id|sub]|] eqn:Hw; destruct (p =? "expo");
    intros H; inversion H; subst; clear H; simpl; try reflexivity.
  - rewrite Hw. destruct s; simpl in *; subst; reflexivity.
  - rewrite Hw. destruct s; simpl in *; subst; reflexivity.
Qed.

(** C7, at the state a provider switch leaves the stop in.  Tracking was
    started on the react-native-community provider and the provider has been
    toggled to expo: [stopTracking], as the effect on [provider] calls it,
    calls the numeric watch id as a function and throws [TypeError]; the
    handle, [isTracking] and the live watch are left as they were, and a
    second call throws again. *)
Theorem stopTracking_throws_after_switch :
  errorMsg trackingOnSecondary = None
  /\ watchIdRef (toggleProvider trackingOnSecondary) = Some (WatchID 0)
  /\ provider (toggleProvider trackingOnSecondary) = "expo"
  /\ stopTracking (toggleProvider trackingOnSecondary)
     = Throw TypeError (toggleProvider trackingOnSecondary)
  /\ step (ToggleProvider granted) trackingOnSecondary
     = Throw TypeError (toggleProvider trackingOnSecondary)
  /\ liveWatches (toggleProvider trackingOnSecondary) = [RNWatch 0]
  /\ isTracking (toggleProvider trackingOnSecondary) = true.
Proof. vm_compute. repeat split. Qed.

(** ** Switching the provider while tracking *)

(** X20. A provider toggle while tracking on expo hands the [remove] of the
    subscription to [Geolocation.clearWatch]: every expo subscription stays
    live, a react-native-community watch is started next to it and its id
    replaces the handle. *)
Lemma switch_from_expo_keeps_subscription (env : Replies) (s : HomePage) (sub : nat) :
  provider s = "expo" ->
  isTracking s = true ->
  watchIdRef s = Some (SubscriptionRemove sub) ->
  exists s',
    step (ToggleProvider env) s = Normal s'
    /\ expoSubscriptions s' = expoSubscriptions s
    /\ rnWatches s' = (rnWatches s ++ [(rnNext s, rnWatchOptions)])%list
    /\ watchIdRef s' = Some (WatchID (rnNext s)).
Proof.
  intros Hp Ht Hw.
  unfold step, providerEffect, toggleProvider, stopTracking, stopTrackingIn,
    startTracking.
  simpl. rewrite Hp, Ht, Hw. simpl.
  eexists. split; [reflexivity |]. repeat split.
Qed.

(** From react-native-community to expo: the stop throws, nothing is
    released and nothing is started. *)
Lemma switch_from_rn_throws (env : Replies) (s : HomePage) (id : nat) :
  (provider s =? "expo") = false ->
  isTracking s = true ->
  watchIdRef s = Some (WatchID id) ->
  step (ToggleProvider env) s = Throw TypeError (toggleProvider s).
Proof.
  intros Hp Ht Hw.
  unfold step, providerEffect, toggleProvider, stopTracking, stopTrackingIn.
  simpl. rewrite Hp, Ht, Hw. reflexivity.
Qed.

(** C1, at the sequence of the specification.  The screen tracks on the
    primary service and has received a fix; the provider is toggled.  The
    stop of the old watch runs under the new provider, so the expo
    subscription is not released: two watches are live afterwards, one of
    each service, and a fix the primary service delivers after the switch
    is written to [location] and recenters the region. *)
Theorem switch_while_tracking_keeps_old_watch :
  (provider trackingOnPrimary = PrimaryService
   /\ isTracking trackingOnPrimary = true
   /\ errorMsg trackingOnPrimary = None
   /\ location trackingOnPrimary = Some fix2
   /\ liveWatches trackingOnPrimary = [ExpoWatch 0])
  /\ exists s',
      step (ToggleProvider granted) trackingOnPrimary = Normal s'
      /\ provider s' = SecondaryService
      /\ isTracking s' = true
      /\ watchIdRef s' = Some (WatchID 0)
      /\ liveWatches s' = [ExpoWatch 0; RNWatch 0]
      /\ location (state_of (step (ExpoLocation 0 fix3) s')) = Some fix3
      /\ region (state_of (step (ExpoLocation 0 fix3) s')) = centeredOn fix3.
Proof.
  split.
  - vm_compute. repeat split.
  - eexists. split; [vm_compute; reflexivity |].
    vm_compute. repeat split.
Qed.

(** ** Frames of the handlers *)

Ltac split_handler :=
  repeat match goal with
         | |- context [match ?x with _ => _ end] => destruct x
         end.

Lemma sameSession_refl (s : HomePage) : sameSession s s.
Proof. repeat split. Qed.

Lemma getLocation_sameSession (env : Replies) (s : HomePage) :
  sameSession s (getLocation env s).
Proof.
  unfold getLocation, getExpoLocation, getRNLocation.
  split_handler; repeat split.
Qed.

(** X1. A one-shot request, on either provider and whatever the native side
    answers, leaves the tracking session alone: the provider, [isTracking],
    the watch handle and the live watches of both modules are unchanged. *)
Theorem getLocation_keeps_session (env : Replies) (s : HomePage) :
  sameSession s (getLocation env s)
  /\ liveWatches (getLocation env s) = liveWatches s.
Proof.
  unfold getLocation, getExpoLocation, getRNLocation.
  split_handler; repeat split.
Qed.

(** X2. A one-shot request ends in one of two ways: a fix is stored, the
    region is put on it and [errorMsg] is left as it was; or [errorMsg] is
    set to the denial message or to the generic message and the fix and the
    region are left as they were. *)
Theorem getLocation_outcomes (env : Replies) (s : HomePage) :
  (exists loc,
      location (getLocation env s) = Some loc
      /\ region (getLocation env s) = centeredOn loc
      /\ errorMsg (getLocation env s) = errorMsg s)
  \/ ((errorMsg (getLocation env s) = Some "Permission to access location was denied"
       \/ errorMsg (getLocation env s) = Some "Error getting location")
      /\ location (getLocation env s) = location s
      /\ region (getLocation env s) = region s).
Proof.
  unfold getLocation, getExpoLocation, getRNLocation.
  destruct (provider s =? "expo").
  - destruct (requestForegroundPermissionsAsync env) as [status|e].
    + destruct (negb (status =? "granted")).
      * right. repeat split. left. reflexivity.
      * destruct (getCurrentPositionAsync env) as [loc|e].
        -- left. exists loc. repeat split.
        -- right. repeat split. right. reflexivity.
    + right. repeat split. right. reflexivity.
  - destruct (getCurrentPosition env) as [position|e].
    + left. exists (toLocationObject position). repeat split.
    + right. repeat split. right. reflexivity.
Qed.

(** ** The error message *)

Lemma step_errorMsg (e : Event) (s : HomePage) :
  errorMsg (state_of (step e s)) = errorMsg s
  \/ exists m, In m errorMessages /\ errorMsg (state_of (step e s)) = Some m.
Proof.
  assert (Hget : forall env s0,
             errorMsg (getLocation env s0) = errorMsg s0
             \/ exists m, In m errorMessages
                          /\ errorMsg (getLocation env s0) = Some m).
  { intros env s0. unfold getLocation, getExpoLocation, getRNLocation.
    split_handler; simpl;
      first [ left; reflexivity
            | right; eexists; split; [| reflexivity]; simpl; tauto ]. }
  assert (Hstart : forall env s0,
             errorMsg (startTracking env s0) = errorMsg s0
             \/ exists m, In m errorMessages
                          /\ errorMsg (startTracking env s0) = Some m).
  { intros env s0. unfold startTracking.
    split_handler; simpl;
      first [ left; reflexivity
            | right; eexists; split; [| reflexivity]; simpl; tauto ]. }
  assert (Hstop : forall p s0,
             errorMsg (state_of (stopTrackingIn p s0)) = errorMsg s0).
  { intros p s0. unfold stopTrackingIn, callHandle, clearWatch.
    destruct (watchIdRef s0) as [[id|sub]|]; destruct (p =? "expo");
      reflexivity. }
  destruct e; cbn [step state_of].
  - apply Hget.
  - apply Hstart.
  - left. apply Hstop.
  - destruct (isTracking s); [left; apply Hstop | apply Hstart].
  - unfold providerEffect, stopTracking.
    destruct (isTracking (toggleProvider s)).
    + pose proof (Hstop (provider (toggleProvider s)) (toggleProvider s)) as Hs.
      destruct (stopTrackingIn (provider (toggleProvider s)) (toggleProvider s))
        as [s1|err s1]; simpl in *.
      * destruct (Hstart env s1) as [H|[m [Hin H]]].
        -- left. rewrite H. exact Hs.
        -- right. exists m. split; assumption.
      * left. exact Hs.
    + apply (Hget env (toggleProvider s)).
  - left. unfold zoomIn. split_handler; reflexivity.
  - left. unfold zoomOut. split_handler; reflexivity.
  - left. reflexivity.
  - left. destruct (isLive (ExpoWatch sub) s); reflexivity.
  - left. destruct (isLive (RNWatch id) s); reflexivity.
  - destruct (isLive (RNWatch id) s); [right | left; reflexivity].
    eexists. split; [| reflexivity]. simpl. tauto.
  - left. apply Hstop.
Qed.

Lemma errorMessages_truthy (m : string) :
  In m errorMessages -> (m =? "") = false.
Proof.
  simpl. intros [<-|[<-|[<-|[<-|[]]]]]; reflexivity.
Qed.

(** X3. No handler clears [errorMsg]: once the screen shows the error text
    in place of the map, it shows it after every further sequence of
    events, successful fixes included. *)
Theorem error_text_stays (es : list Event) (s : HomePage) :
  showsError s = true -> showsError (run es s) = true.
Proof.
  revert s. induction es as [|e es IH]; intros s H; simpl.
  - exact H.
  - apply IH. unfold showsError in *.
    destruct (step_errorMsg e s) as [Heq|[m [Hin Heq]]]; rewrite Heq.
    + exact H.
    + rewrite (errorMessages_truthy m Hin). reflexivity.
Qed.

Lemma error_text_stays_witness :
  showsError (run [GetLocation granted; ZoomIn; StartTracking granted;
                   RNPosition 0 position1]
                  (mount declined)) = true.
Proof.
  apply (error_text_stays _ (mount declined)). reflexivity.
Defined.

(** X4. In every state the screen reaches from its mount, [errorMsg] is
    null or one of the four messages of the source, none of them empty. *)
Theorem errorMsg_reachable (env : Replies) (es : list Event) :
  errorMsg (run es (mount env)) = None
  \/ exists m, In m errorMessages /\ errorMsg (run es (mount env)) = Some m.
Proof.
  assert (Hrun : forall es0 s,
             (errorMsg s = None
              \/ exists m, In m errorMessages /\ errorMsg s = Some m) ->
             errorMsg (run es0 s) = None
             \/ exists m, In m errorMessages /\ errorMsg (run es0 s) = Some m).
  { induction es0 as [|e es0 IH]; intros s H; simpl; [exact H |].
    apply IH. destruct (step_errorMsg e s) as [Heq|Hset].
    - rewrite Heq. exact H.
    - right. exact Hset. }
  apply Hrun. unfold mount.
  destruct (step_errorMsg (GetLocation env) initialState) as [Heq|Hset].
  - left. exact Heq.
  - right. exact Hset.
Qed.

(** ** The provider *)

Lemma step_provider (e : Event) (s : HomePage) :
  provider (state_of (step e s)) = provider s
  \/ provider (state_of (step e s)) = provider (toggleProvider s).
Proof.
  assert (Hget : forall env s0, provider (getLocation env s0) = provider s0).
  { intros env s0. apply (getLocation_sameSession env s0). }
  assert (Hstart : forall env s0, provider (startTracking env s0) = provider s0).
  { intros env s0. unfold startTracking. split_handler; reflexivity. }
  assert (Hstop : forall p s0, provider (state_of (stopTrackingIn p s0)) = provider s0).
  { intros p s0. unfold stopTrackingIn, callHandle, clearWatch.
    destruct (watchIdRef s0) as [[id|sub]|]; destruct (p =? "expo");
      reflexivity. }
  destruct e; cbn [step state_of];
    try (left; first [apply Hget | apply Hstart | apply Hstop | reflexivity]).
  - left. destruct (isTracking s); [apply Hstop | apply Hstart].
  - right. unfold providerEffect, stopTracking.
    destruct (isTracking (toggleProvider s)).
    + pose proof (Hstop (provider (toggleProvider s)) (toggleProvider s)) as Hs.
      destruct (stopTrackingIn (provider (toggleProvider s)) (toggleProvider s))
        as [s1|err s1]; simpl in *.
      * rewrite Hstart. exact Hs.
      * exact Hs.
    + apply Hget.
  - left. unfold zoomIn. split_handler; reflexivity.
  - left. unfold zoomOut. split_handler; reflexivity.
  - left. destruct (isLive (ExpoWatch sub) s); reflexivity.
  - left. destruct (isLive (RNWatch id) s); reflexivity.
  - left. destruct (isLive (RNWatch id) s); reflexivity.
Qed.

Lemma toggleProvider_known (s : HomePage) : knownProvider (toggleProvider s).
Proof.
  unfold knownProvider, toggleProvider. simpl.
  destruct (provider s =? "expo"); [right | left]; reflexivity.
Qed.

(** X5. In every state the screen reaches from its mount the provider is
    ['expo'] or ['react-native-community']; the ['react-native'] of the
    [LocationProvider] type is never a value of the state.  On these two
    values a toggle is undone by a second toggle. *)
Theorem provider_reachable (env : Replies) (es : list Event) :
  knownProvider (run es (mount env))
  /\ provider (run es (mount env)) <> "react-native"
  /\ toggleProvider (toggleProvider (run es (mount env))) = run es (mount env).
Proof.
  assert (Hrun : forall es0 s, knownProvider s -> knownProvider (run es0 s)).
  { induction es0 as [|e es0 IH]; intros s H; simpl; [exact H |].
    apply IH. unfold knownProvider.
    destruct (step_provider e s) as [Heq|Heq]; rewrite Heq.
    - exact H.
    - apply toggleProvider_known. }
  assert (Hk : knownProvider (run es (mount env))).
  { apply Hrun. unfold mount, knownProvider.
    destruct (step_provider (GetLocation env) initialState) as [Heq|Heq];
      cbn [step state_of] in Heq.
    - right. exact Heq.
    - left. exact Heq. }
  split; [exact Hk |].
  destruct (run es (mount env)) as [l m r p t w xs xn ws wn].
  unfold knownProvider in Hk. simpl in Hk.
  split.
  - simpl. destruct Hk as [-> | ->]; discriminate.
  - unfold toggleProvider. simpl. destruct Hk as [-> | ->]; reflexivity.
Qed.

(** ** Starting a watch *)

(** X6. [startTracking] on the expo provider either has the permission
    granted and the subscription made, and then registers exactly one
    subscription (balanced accuracy, 5000 ms, 10 m), keeps its [remove] in
    [watchIdRef] and sets [isTracking]; or it sets [errorMsg], to the denial
    message or to the start-failure message, and changes nothing else: no
    watch is started without the permission. *)
Theorem startTracking_expo_outcomes (env : Replies) (s : HomePage) :
  provider s = "expo" ->
  (requestForegroundPermissionsAsync env = Fulfilled "granted"
   /\ (exists u, watchPositionAsync env = Fulfilled u)
   /\ startTracking env s =
      setIsTracking true
        (setWatchIdRef (Some (SubscriptionRemove (expoNext s)))
           (expoSubscribe {| accuracy := Some Balanced;
                             timeInterval := Some 5000%Z;
                             distanceInterval := Some 10%Z |} s)))
  \/ ((requestForegroundPermissionsAsync env <> Fulfilled "granted"
       \/ exists e, watchPositionAsync env = Rejected e)
      /\ (startTracking env s
            = setErrorMsg (Some "Permission to access location was denied") s
          \/ startTracking env s
            = setErrorMsg (Some "Error starting location tracking") s)).
Proof.
  intros Hp. unfold startTracking. rewrite Hp. simpl.
  destruct (requestForegroundPermissionsAsync env) as [status|e].
  - destruct (String.eqb_spec status "granted") as [->|Hne]; simpl.
    + destruct (watchPositionAsync env) as [u|e].
      * left. split; [reflexivity | split; [exists u; reflexivity | reflexivity]].
      * right. split; [right; exists e; reflexivity | right; reflexivity].
    + right. split; [left; congruence | left; reflexivity].
  - right. split; [left; discriminate | right; reflexivity].
Qed.

Lemma startTracking_expo_outcomes_witness :
  liveWatches (startTracking granted (toggleProvider initialState)) = [ExpoWatch 0]
  /\ liveWatches (startTracking declined (toggleProvider initialState)) = [].
Proof.
  split.
  - destruct (startTracking_expo_outcomes granted (toggleProvider initialState)
                eq_refl) as [(_ & _ & ->) | ([H | [e H]] & _)].
    + reflexivity.
    + exfalso. apply H. reflexivity.
    + discriminate H.
  - destruct (startTracking_expo_outcomes declined (toggleProvider initialState)
                eq_refl) as [(H & _) | (_ & [-> | ->])].
    + discriminate H.
    + reflexivity.
    + reflexivity.
Defined.

(** ** Stopping a watch, continued *)

Lemma stopTracking_releases_own_watch_witness :
  (exists s', stopTracking trackingOnPrimary = Normal s'
              /\ isLive (ExpoWatch 0) s' = false
              /\ watchIdRef s' = None /\ isTracking s' = false)
  /\ (exists s', stopTracking trackingOnSecondary = Normal s'
                 /\ isLive (RNWatch 0) s' = false
                 /\ watchIdRef s' = None /\ isTracking s' = false).
Proof.
  split.
  - apply (stopTracking_releases_own_watch trackingOnPrimary); reflexivity.
  - apply (stopTracking_releases_own_watch trackingOnSecondary); reflexivity.
Defined.

Lemma stopTrackingIn_throws_witness :
  stopTrackingIn "expo" trackingOnSecondary = Throw TypeError trackingOnSecondary.
Proof.
  apply (stopTrackingIn_throws "expo" trackingOnSecondary).
  split; [reflexivity | split; [exists 0; reflexivity | split; reflexivity]].
Defined.

Lemma stopTrackingIn_idempotent_witness :
  stopTrackingIn "expo" (state_of (stopTracking trackingOnPrimary))
  = Normal (state_of (stopTracking trackingOnPrimary)).
Proof.
  apply (stopTrackingIn_idempotent "expo" trackingOnPrimary). reflexivity.
Defined.

(** X10. The cleanup of the unmount keeps the [stopTracking] of the first
    render, whose provider is the initial one: it never throws, it nulls the
    watch handle and [isTracking], and it releases a react-native-community
    watch held in the handle; it releases no expo subscription, whatever the
    handle holds. *)
Theorem cleanup_on_unmount (s : HomePage) :
  exists s',
    step Unmount s = Normal s'
    /\ watchIdRef s' = None
    /\ isTracking s' = false
    /\ expoSubscriptions s' = expoSubscriptions s
    /\ (forall id, watchIdRef s = Some (WatchID id) -> isLive (RNWatch id) s' = false)
    /\ location s' = location s /\ region s' = region s
    /\ errorMsg s' = errorMsg s /\ provider s' = provider s.
Proof.
  cbn [step]. unfold cleanup, stopTrackingIn, clearWatch. simpl.
  destruct (watchIdRef s) as [[id|sub]|] eqn:Hw; eexists;
    (split; [reflexivity |]); simpl; repeat split;
    try exact Hw;
    try (intros id' H; inversion H; subst; apply dropWatch_not_live).
Qed.

Example cleanup_leaves_expo_subscription :
  liveWatches (state_of (step Unmount trackingOnPrimary)) = [ExpoWatch 0]
  /\ liveWatches (state_of (step Unmount trackingOnSecondary)) = [].
Proof. vm_compute. split; reflexivity. Qed.

(** ** The effect on [provider] *)

Lemma stopTrackingIn_throws_aux (s : HomePage) (e : JsError) (s' : HomePage) :
  stopTrackingIn (provider (toggleProvider s)) (toggleProvider s) = Throw e s' ->
  (provider s =? "expo") = false
  /\ (exists id, watchIdRef s = Some (WatchID id))
  /\ e = TypeError /\ s' = toggleProvider s.
Proof.
  unfold stopTrackingIn, callHandle, toggleProvider. simpl.
  destruct (watchIdRef s) as [[id|sub]|]; destruct (provider s =? "expo");
    simpl; try discriminate.
  intros H. inversion H. repeat split. exists id. reflexivity.
Qed.

Lemma stopTrackingIn_throws_iff_aux (s : HomePage) :
  (provider s =? "expo") = false ->
  (exists id, watchIdRef s = Some (WatchID id)) ->
  stopTrackingIn (provider (toggleProvider s)) (toggleProvider s)
  = Throw TypeError (toggleProvider s).
Proof.
  intros Hp [id Hw]. unfold stopTrackingIn, callHandle, toggleProvider. simpl.
  rewrite Hw, Hp. reflexivity.
Qed.

(** X11. A provider toggle throws exactly when the screen is tracking on a
    numeric watch id and the toggle makes expo the provider; the error is a
    [TypeError], the provider has changed and nothing else has. *)
Theorem toggle_throws_iff (env : Replies) (s : HomePage) (e : JsError) (s' : HomePage) :
  step (ToggleProvider env) s = Throw e s'
  <-> isTracking s = true
      /\ (provider s =? "expo") = false
      /\ (exists id, watchIdRef s = Some (WatchID id))
      /\ e = TypeError /\ s' = toggleProvider s.
Proof.
  cbn [step]. unfold providerEffect, stopTracking.
  replace (isTracking (toggleProvider s)) with (isTracking s) by reflexivity.
  destruct (isTracking s).
  - destruct (stopTrackingIn (provider (toggleProvider s)) (toggleProvider s))
      as [s1|e1 s1] eqn:Hstop.
    + split; [discriminate |].
      intros (_ & Hp & Hid & _ & _).
      assert (Ht : stopTrackingIn (provider (toggleProvider s)) (toggleProvider s)
                   = Throw TypeError (toggleProvider s)).
      { apply stopTrackingIn_throws_iff_aux; assumption. }
      rewrite Ht in Hstop. discriminate Hstop.
    + apply stopTrackingIn_throws_aux in Hstop.
      destruct Hstop as (Hp & Hid & -> & ->).
      split.
      * intros H. inversion H; subst. repeat split; assumption.
      * intros (_ & _ & _ & -> & ->). reflexivity.
  - split; [discriminate | intros (H & _); discriminate H].
Qed.

Lemma cleanup_on_unmount_witness :
  exists s',
    step Unmount trackingOnSecondary = Normal s'
    /\ isLive (RNWatch 0) s' = false
    /\ watchIdRef s' = None.
Proof.
  destruct (cleanup_on_unmount trackingOnSecondary)
    as (s' & Hstep & Hw & _ & _ & Hlive & _).
  exists s'. split; [exact Hstep | split; [| exact Hw]].
  apply Hlive. reflexivity.
Defined.

Lemma toggle_throws_iff_witness :
  step (ToggleProvider granted) trackingOnSecondary
  = Throw TypeError (toggleProvider trackingOnSecondary).
Proof.
  apply (toggle_throws_iff granted trackingOnSecondary).
  split; [reflexivity | split; [reflexivity |]].
  split; [exists 0; reflexivity | split; reflexivity].
Defined.

(** ** Streams of fixes *)

Lemma run_app (es1 es2 : list Event) (s : HomePage) :
  run (es1 ++ es2) s = run es2 (run es1 s).
Proof.
  revert s. induction es1 as [|e es1 IH]; intros s; simpl.
  - reflexivity.
  - apply IH.
Qed.

Lemma fix_keeps_session (e : Event) (s : HomePage) :
  isFix e = true ->
  sameSession s (state_of (step e s))
  /\ errorMsg (state_of (step e s)) = errorMsg s.
Proof.
  destruct e; simpl; try discriminate; intros _.
  - destruct (existsb _ (expoSubscriptions s)); repeat split.
  - destruct (existsb _ (rnWatches s)); repeat split.
Qed.

Lemma fixes_keep_session (es : list Event) (s : HomePage) :
  forallb isFix es = true ->
  sameSession s (run es s) /\ errorMsg (run es s) = errorMsg s.
Proof.
  revert s. induction es as [|e es IH]; intros s H; simpl.
  - split; [apply sameSession_refl | reflexivity].
  - simpl in H. apply andb_true_iff in H. destruct H as [He Hes].
    destruct (fix_keeps_session e s He) as [Hs Hm].
    destruct (IH (state_of (step e s)) Hes) as [Hs' Hm'].
    unfold sameSession in *.
    destruct Hs as (H1 & H2 & H3 & H4 & H5 & H6 & H7).
    destruct Hs' as (K1 & K2 & K3 & K4 & K5 & K6 & K7).
    repeat split; congruence.
Qed.

Lemma sameSession_isLive (w : Watch) (s s' : HomePage) :
  sameSession s s' -> isLive w s' = isLive w s.
Proof.
  intros (_ & _ & _ & He & _ & Hr & _).
  destruct w; simpl; [rewrite He | rewrite Hr]; reflexivity.
Qed.

(** X12. After any stream of fixes from the live watches, in whatever order
    the two modules deliver them, the fix on screen and the region are those
    of the fix delivered last; the stream leaves the tracking session and
    [errorMsg] as they were. *)
Theorem last_fix_wins (es : list Event) (s : HomePage) :
  forallb isFix es = true ->
  (forall sub loc,
      isLive (ExpoWatch sub) s = true ->
      location (run (es ++ [ExpoLocation sub loc]) s) = Some loc
      /\ region (run (es ++ [ExpoLocation sub loc]) s) = centeredOn loc
      /\ sameSession s (run (es ++ [ExpoLocation sub loc]) s)
      /\ errorMsg (run (es ++ [ExpoLocation sub loc]) s) = errorMsg s)
  /\ (forall id position,
      isLive (RNWatch id) s = true ->
      location (run (es ++ [RNPosition id position]) s)
        = Some {| coords := position_coords position;
                  timestamp := position_timestamp position |}
      /\ region (run (es ++ [RNPosition id position]) s)
        = {| latitude := Coords.latitude (position_coords position);
             longitude := Coords.longitude (position_coords position);
             latitudeDelta := Number.decimal 1 2;
             longitudeDelta := Number.decimal 1 2 |}
      /\ sameSession s (run (es ++ [RNPosition id position]) s)
      /\ errorMsg (run (es ++ [RNPosition id position]) s) = errorMsg s).
Proof.
  intros Hes.
  destruct (fixes_keep_session es s Hes) as [Hsame Herr].
  split.
  - intros sub loc Hlive. rewrite run_app. cbn [run step state_of].
    rewrite (sameSession_isLive (ExpoWatch sub) s (run es s) Hsame), Hlive.
    repeat split; try apply Hsame. exact Herr.
  - intros id position Hlive. rewrite run_app. cbn [run step state_of].
    rewrite (sameSession_isLive (RNWatch id) s (run es s) Hsame), Hlive.
    unfold onRNPosition, updateRegion.
    cbn [location region setRegion setLocation].
    rewrite <- (toLocationObject_fields position).
    repeat split; try apply Hsame. exact Herr.
Qed.

Lemma last_fix_wins_witness :
  (location (run ([ExpoLocation 0 fix1; ExpoLocation 0 fix2] ++ [ExpoLocation 0 fix3])
                 trackingOnPrimary) = Some fix3
   /\ region (run ([ExpoLocation 0 fix1; ExpoLocation 0 fix2] ++ [ExpoLocation 0 fix3])
                  trackingOnPrimary) = centeredOn fix3)
  /\ (location (run ([RNPosition 0 position1; RNPosition 0 position2]
                     ++ [RNPosition 0 position3])
                    trackingOnSecondary)
        = Some {| coords := at_ 3 3; timestamp := Number.of_Z 3000 |}
      /\ region (run ([RNPosition 0 position1; RNPosition 0 position2]
                      ++ [RNPosition 0 position3])
                     trackingOnSecondary)
        = {| latitude := Number.of_Z 3;
             longitude := Number.of_Z 3;
             latitudeDelta := Number.decimal 1 2;
             longitudeDelta := Number.decimal 1 2 |}).
Proof.
  destruct (last_fix_wins [ExpoLocation 0 fix1; ExpoLocation 0 fix2]
              trackingOnPrimary eq_refl) as [Hexpo _].
  destruct (last_fix_wins [RNPosition 0 position1; RNPosition 0 position2]
              trackingOnSecondary eq_refl) as [_ Hrn].
  split.
  - destruct (Hexpo 0 fix3 eq_refl) as (Hloc & Hreg & _). split; assumption.
  - destruct (Hrn 0 position3 eq_refl) as (Hloc & Hreg & _). split; assumption.
Defined.

(** X13. An error of a react-native-community watch is not the end of the
    watch: [errorMsg] becomes the tracking message, and the watch stays
    live, [isTracking] and the handle stay, and the next position of the
    watch is still stored and recenters the region. *)
Theorem watch_error_keeps_watch (s : HomePage) (id : nat) (position : GeolocationResponse) :
  isLive (RNWatch id) s = true ->
  errorMsg (state_of (step (RNError id) s)) = Some "Error tracking location"
  /\ showsError (state_of (step (RNError id) s)) = true
  /\ sameSession s (state_of (step (RNError id) s))
  /\ isLive (RNWatch id) (state_of (step (RNError id) s)) = true
  /\ location (run [RNError id; RNPosition id position] s)
     = Some (toLocationObject position)
  /\ region (run [RNError id; RNPosition id position] s)
     = centeredOn (toLocationObject position).
Proof.
  intros Hlive. cbn [run step state_of]. rewrite Hlive.
  assert (Hl : isLive (RNWatch id) (onRNError s) = true) by exact Hlive.
  rewrite Hl. repeat split.
Qed.

Lemma watch_error_keeps_watch_witness :
  showsError (state_of (step (RNError 0) trackingOnSecondary)) = true
  /\ isLive (RNWatch 0) (state_of (step (RNError 0) trackingOnSecondary)) = true.
Proof.
  destruct (watch_error_keeps_watch trackingOnSecondary 0 position1 eq_refl)
    as (_ & Hshow & _ & Hlive & _).
  split; assumption.
Defined.

(** ** The zoom buttons *)

Lemma not_le_gt (x y : number) :
  x <> S754_nan -> y <> S754_nan ->
  Number.le x y = false -> Number.gt x y = true.
Proof.
  unfold Number.le, Number.gt, SFleb, SFltb. intros Hx Hy.
  rewrite (SFcompare_antisym x y).
  destruct x as [sx|sx| |sx mx ex]; try congruence;
    destruct y as [sy|sy| |sy my ey]; try congruence;
    destruct (SFcompare _ _) as [[ | | ]|] eqn:E; simpl;
    try congruence; discriminate E.
Qed.

Lemma not_ge_lt (x y : number) :
  x <> S754_nan -> y <> S754_nan ->
  Number.ge x y = false -> Number.lt x y = true.
Proof.
  unfold Number.ge, Number.lt, SFleb, SFltb. intros Hx Hy.
  rewrite (SFcompare_antisym y x).
  destruct x as [sx|sx| |sx mx ex]; try congruence;
    destruct y as [sy|sy| |sy my ey]; try congruence;
    destruct (SFcompare _ _) as [[ | | ]|] eqn:E; simpl;
    try congruence; discriminate E.
Qed.

(** X14. The [disabled] props of the zoom buttons agree with the guards of
    the handlers whenever [latitudeDelta] is a number: a disabled button
    would do nothing, an enabled zoom-in halves and an enabled zoom-out
    doubles.  When [latitudeDelta] is NaN both buttons are enabled and both
    do nothing. *)
Theorem zoom_buttons_match_handlers (s : HomePage) :
  (zoomInDisabled s = true -> zoomIn s = s)
  /\ (zoomOutDisabled s = true -> zoomOut s = s)
  /\ (latitudeDelta (region s) <> S754_nan ->
      zoomInDisabled s = false ->
      region (zoomIn s) =
        {| latitude := latitude (region s);
           longitude := longitude (region s);
           latitudeDelta := Number.div (latitudeDelta (region s)) Number.two;
           longitudeDelta := Number.div (longitudeDelta (region s)) Number.two |})
  /\ (latitudeDelta (region s) <> S754_nan ->
      zoomOutDisabled s = false ->
      region (zoomOut s) =
        {| latitude := latitude (region s);
           longitude := longitude (region s);
           latitudeDelta := Number.mul (latitudeDelta (region s)) Number.two;
           longitudeDelta := Number.mul (longitudeDelta (region s)) Number.two |})
  /\ (latitudeDelta (region s) = S754_nan ->
      zoomInDisabled s = false /\ zoomOutDisabled s = false
      /\ zoomIn s = s /\ zoomOut s = s).
Proof.
  unfold zoomInDisabled, zoomOutDisabled, zoomIn, zoomOut.
  split; [| split; [| split; [| split; [| intros Hnan]]]].
  - intros H. rewrite (le_not_gt _ _ H). reflexivity.
  - intros H. rewrite (ge_not_lt _ _ H). reflexivity.
  - intros Hn H. rewrite (not_le_gt _ MIN_ZOOM_DELTA Hn) by (discriminate || exact H).
    reflexivity.
  - intros Hn H. rewrite (not_ge_lt _ MAX_ZOOM_DELTA Hn) by (discriminate || exact H).
    reflexivity.
  - rewrite Hnan. repeat split.
Qed.

Lemma zoom_buttons_match_handlers_witness :
  zoomIn (mount granted) = mount granted
  /\ zoomOut (setRegion wideRegion initialState) = setRegion wideRegion initialState
  /\ latitudeDelta (region (zoomIn initialState))
     = S754_finite false 6643710170296956 (-57)
  /\ latitudeDelta (region (zoomOut initialState))
     = S754_finite false 6643710170296956 (-55)
  /\ zoomIn (setRegion nanRegion initialState) = setRegion nanRegion initialState.
Proof.
  destruct (zoom_buttons_match_handlers (mount granted)) as (H1 & _).
  destruct (zoom_buttons_match_handlers (setRegion wideRegion initialState))
    as (_ & H2 & _).
  destruct (zoom_buttons_match_handlers initialState) as (_ & _ & H3 & H4 & _).
  destruct (zoom_buttons_match_handlers (setRegion nanRegion initialState))
    as (_ & _ & _ & _ & H5).
  split; [apply H1; vm_compute; reflexivity |].
  split; [apply H2; vm_compute; reflexivity |].
  split; [rewrite H3; [vm_compute; reflexivity | discriminate | vm_compute; reflexivity] |].
  split; [rewrite H4; [vm_compute; reflexivity | discriminate | vm_compute; reflexivity] |].
  apply H5. reflexivity.
Defined.

(** ** Start, then stop *)

Lemma dropWatch_fresh {O : Type} (n : nat) (o : O) (l : list (nat * O)) :
  Forall (fun w => fst w < n) l ->
  dropWatch n (l ++ [(n, o)]) = l.
Proof.
  induction 1 as [|[i x] l Hi Hl IH]; simpl.
  - rewrite Nat.eqb_refl. reflexivity.
  - simpl in Hi. destruct (Nat.eqb_spec i n) as [->|Hne]; [lia |].
    simpl. f_equal. exact IH.
Qed.

Lemma Forall_dropWatch {O : Type} (P : nat * O -> Prop) (n : nat) (l : list (nat * O)) :
  Forall P l -> Forall P (dropWatch n l).
Proof.
  intros H. unfold dropWatch. apply Forall_forall. intros x Hx.
  apply filter_In in Hx. destruct Hx as [Hx _].
  rewrite Forall_forall in H. apply H, Hx.
Qed.

Lemma Forall_lt_S {O : Type} (n : nat) (o : O) (l : list (nat * O)) :
  Forall (fun w => fst w < n) l ->
  Forall (fun w => fst w < S n) (l ++ [(n, o)]).
Proof.
  intros H. apply Forall_app. split.
  - eapply Forall_impl; [| exact H]. simpl. intros a Ha. lia.
  - constructor; [simpl; lia | constructor].
Qed.

Lemma getLocation_freshIds (env : Replies) (s : HomePage) :
  freshIds s -> freshIds (getLocation env s).
Proof.
  unfold freshIds.
  destruct (getLocation_sameSession env s) as (_ & _ & _ & -> & -> & -> & ->). tauto.
Qed.

Lemma startTracking_freshIds (env : Replies) (s : HomePage) :
  freshIds s -> freshIds (startTracking env s).
Proof.
  unfold freshIds, startTracking. intros [He Hr].
  destruct (provider s =? "expo");
    [destruct (requestForegroundPermissionsAsync env) as [status|];
     [destruct (negb (status =? "granted"));
      [| destruct (watchPositionAsync env)] |] |];
    simpl; split; try assumption; apply Forall_lt_S; assumption.
Qed.

Lemma stopTrackingIn_freshIds (p : string) (s : HomePage) :
  freshIds s -> freshIds (state_of (stopTrackingIn p s)).
Proof.
  unfold freshIds, stopTrackingIn, callHandle, clearWatch. intros [He Hr].
  destruct (watchIdRef s) as [[id|sub]|]; destruct (p =? "expo");
    simpl; split; try assumption; apply Forall_dropWatch; assumption.
Qed.

Lemma step_freshIds (e : Event) (s : HomePage) :
  freshIds s -> freshIds (state_of (step e s)).
Proof.
  intros H. destruct e; cbn [step].
  - apply getLocation_freshIds, H.
  - apply startTracking_freshIds, H.
  - apply stopTrackingIn_freshIds, H.
  - destruct (isTracking s).
    + apply stopTrackingIn_freshIds, H.
    + apply startTracking_freshIds, H.
  - unfold providerEffect, stopTracking.
    assert (Ht : freshIds (toggleProvider s)) by exact H.
    destruct (isTracking (toggleProvider s)).
    + pose proof (stopTrackingIn_freshIds (provider (toggleProvider s)) _ Ht) as Hs.
      destruct (stopTrackingIn (provider (toggleProvider s)) (toggleProvider s))
        as [s1|err s1]; simpl in *.
      * apply startTracking_freshIds, Hs.
      * exact Hs.
    + apply getLocation_freshIds, Ht.
  - cbn [state_of]. unfold zoomIn. destruct (Number.gt _ _); exact H.
  - cbn [state_of]. unfold zoomOut. destruct (Number.lt _ _); exact H.
  - exact H.
  - cbn [state_of]. destruct (isLive (ExpoWatch sub) s); exact H.
  - cbn [state_of]. destruct (isLive (RNWatch id) s); exact H.
  - cbn [state_of]. destruct (isLive (RNWatch id) s); exact H.
  - apply stopTrackingIn_freshIds, H.
Qed.

Lemma freshIds_reachable (env : Replies) (es : list Event) :
  freshIds (run es (mount env)).
Proof.
  assert (Hrun : forall es0 s, freshIds s -> freshIds (run es0 s)).
  { induction es0 as [|e es0 IH]; intros s H; simpl; [exact H |].
    apply IH, step_freshIds, H. }
  apply Hrun. unfold mount.
  apply (step_freshIds (GetLocation env) initialState).
  split; constructor.
Qed.

Lemma start_stop_fresh (env : Replies) (s : HomePage) :
  freshIds s ->
  isTracking (startTracking env s) = true ->
  isTracking s = false ->
  exists s',
    stopTracking (startTracking env s) = Normal s'
    /\ liveWatches s' = liveWatches s
    /\ watchIdRef s' = None /\ isTracking s' = false
    /\ location s' = location s /\ region s' = region s
    /\ errorMsg s' = errorMsg s /\ provider s' = provider s.
Proof.
  intros [He Hr] Hon Hoff.
  unfold stopTracking, stopTrackingIn, startTracking, callHandle, clearWatch,
    liveWatches in *.
  destruct (provider s =? "expo") eqn:Hp.
  - destruct (requestForegroundPermissionsAsync env) as [status|];
      [destruct (negb (status =? "granted"));
       [| destruct (watchPositionAsync env)] |];
      simpl in Hon; try congruence.
    simpl. rewrite Hp. eexists. split; [reflexivity |]. simpl.
    rewrite (dropWatch_fresh _ _ _ He). repeat split.
  - simpl. rewrite Hp. eexists. split; [reflexivity |]. simpl.
    rewrite (dropWatch_fresh _ _ _ Hr). repeat split.
Qed.

(** X15. From any state the screen reaches from its mount in which it is
    not tracking, a press of the tracking button that starts a watch
    followed by a second press stops exactly that watch: the live watches of
    both modules, the fix, the region, [errorMsg] and the provider are as
    before the first press, and the handle is null again. *)
Theorem press_twice_restores (env env1 env2 : Replies) (es : list Event) :
  isTracking (run es (mount env)) = false ->
  isTracking (run [PressTracking env1] (run es (mount env))) = true ->
  liveWatches (run [PressTracking env1; PressTracking env2] (run es (mount env)))
    = liveWatches (run es (mount env))
  /\ watchIdRef (run [PressTracking env1; PressTracking env2] (run es (mount env)))
     = None
  /\ isTracking (run [PressTracking env1; PressTracking env2] (run es (mount env)))
     = false
  /\ location (run [PressTracking env1; PressTracking env2] (run es (mount env)))
     = location (run es (mount env))
  /\ region (run [PressTracking env1; PressTracking env2] (run es (mount env)))
     = region (run es (mount env))
  /\ errorMsg (run [PressTracking env1; PressTracking env2] (run es (mount env)))
     = errorMsg (run es (mount env))
  /\ provider (run [PressTracking env1; PressTracking env2] (run es (mount env)))
     = provider (run es (mount env)).
Proof.
  pose proof (freshIds_reachable env es) as Hfresh.
  generalize dependent (run es (mount env)). intros s Hfresh Hoff Hon.
  cbn [run step] in *. rewrite Hoff in *. cbn [state_of] in *.
  rewrite Hon.
  destruct (start_stop_fresh env1 s Hfresh Hon Hoff)
    as (s' & -> & Hl & Hw & Ht & Hloc & Hreg & Herr & Hp).
  cbn [state_of]. repeat split; assumption.
Qed.

Lemma press_twice_restores_witness :
  liveWatches (run [PressTracking granted; PressTracking declined]
                   (run [ToggleProvider granted; ZoomOut] (mount granted)))
  = [].
Proof.
  destruct (press_twice_restores granted granted declined
              [ToggleProvider granted; ZoomOut] eq_refl eq_refl) as [H _].
  rewrite H. reflexivity.
Defined.

(** ** Halving and doubling are exact *)

Lemma two_bits : Number.two = S754_finite false 4503599627370496 (-51).
Proof. vm_compute. reflexivity. Qed.

Lemma fexp_normal (x : Z) : (-1021 <= x)%Z -> fexp 53 1024 x = (x - 53)%Z.
Proof.
  unfold fexp, emin. intros H.
  change IntDef.Z.max with Z.max. change IntDef.Z.sub with Z.sub. lia.
Qed.

Lemma div_eucl_exact (q b : Z) : (0 < b)%Z -> Z.div_eucl (q * b) b = (q, 0%Z).
Proof.
  intros Hb. pose proof (Z.div_mul q b ltac:(lia)) as Hq.
  pose proof (Z.mod_mul q b ltac:(lia)) as Hr.
  unfold Z.div, Z.modulo in *. destruct (Z.div_eucl (q * b) b). congruence.
Qed.

(** A full mantissa at an exponent in range needs no shift. *)
Lemma shr_fexp_normal (m : positive) (e : Z) :
  digits2_pos m = 53%positive -> (-1074 <= e)%Z ->
  shr_fexp 53 1024 (Z.pos m) e loc_Exact
  = ({| shr_m := Z.pos m; shr_r := false; shr_s := false |}, e).
Proof.
  intros Hd He. unfold shr_fexp, Zdigits2. rewrite Hd.
  change IntDef.Z.add with Z.add. change IntDef.Z.sub with Z.sub.
  rewrite fexp_normal by lia.
  replace (53 + e - 53 - e)%Z with 0%Z by lia.
  reflexivity.
Qed.

Lemma round_tail (s : bool) (m : positive) (e : Z) :
  digits2_pos m = 53%positive -> (-1074 <= e <= 971)%Z ->
  (let '(mrs'', e'') := shr_fexp 53 1024 (Z.pos m) e loc_Exact in
   match shr_m mrs'' with
   | 0%Z => S754_zero s
   | Z.pos m0 =>
       if IntDef.Z.leb e'' (IntDef.Z.sub 1024 53)
       then S754_finite s m0 e'' else S754_infinity s
   | Z.neg _ => S754_nan
   end) = S754_finite s m e.
Proof.
  intros Hd He. rewrite (shr_fexp_normal m e Hd) by lia.
  cbn [shr_m]. change IntDef.Z.leb with Z.leb. change IntDef.Z.sub with Z.sub.
  replace (e <=? 1024 - 53)%Z with true by (symmetry; apply Z.leb_le; lia).
  reflexivity.
Qed.

Lemma div_two_exact (s : bool) (m : positive) (e : Z) :
  digits2_pos m = 53%positive -> (-1072 <= e <= 972)%Z ->
  Number.div (S754_finite s m e) Number.two = S754_finite s m (e - 1).
Proof.
  intros Hd He. rewrite two_bits.
  unfold Number.div, Number.prec, Number.emax, SFdiv, SFdiv_core_binary.
  unfold Zdigits2. rewrite Hd.
  change (digits2_pos 4503599627370496) with 53%positive.
  change IntDef.Z.min with Z.min. change IntDef.Z.sub with Z.sub.
  change IntDef.Z.add with Z.add.
  rewrite fexp_normal by lia.
  replace (Z.min (53 + e - (53 + -51) - 53) (e - -51))%Z with (e - 2)%Z by lia.
  replace (e - -51 - (e - 2))%Z with 53%Z by lia.
  change IntDef.Z.div_eucl with Z.div_eucl. change IntDef.Z.shiftl with Z.shiftl.
  replace (Z.shiftl (Z.pos m) 53) with (Z.pos m~0 * 4503599627370496)%Z
    by (rewrite Z.shiftl_mul_pow2 by lia;
        change (2 ^ 53)%Z with 9007199254740992%Z; lia).
  rewrite div_eucl_exact by lia.
  change (new_location 4503599627370496 0) with loc_Exact.
  rewrite xorb_false_r.
  unfold binary_round_aux at 1, shr_fexp at 1, Zdigits2.
  cbn [digits2_pos]. rewrite Hd.
  change (Z.pos (Pos.succ 53)) with 54%Z.
  change IntDef.Z.add with Z.add. change IntDef.Z.sub with Z.sub.
  rewrite fexp_normal by lia.
  replace (54 + (e - 2) - 53 - (e - 2))%Z with 1%Z by lia.
  cbn [shr shr_record_of_loc iter_pos shr_1 orb loc_of_shr_record
       shr_m shr_r shr_s round_nearest_even].
  replace (e - 2 + 1)%Z with (e - 1)%Z by lia.
  apply (round_tail s m (e - 1) Hd). lia.
Qed.

Lemma mul_two_exact (s : bool) (m : positive) (e : Z) :
  digits2_pos m = 53%positive -> (-1074 <= e <= 970)%Z ->
  Number.mul (S754_finite s m e) Number.two = S754_finite s m (e + 1).
Proof.
  intros Hd He. rewrite two_bits.
  unfold Number.mul, Number.prec, Number.emax, SFmul. rewrite xorb_false_r.
  rewrite (Pos.mul_comm m 4503599627370496).
  cbn [Pos.mul].
  unfold binary_round_aux at 1, shr_fexp at 1, Zdigits2.
  cbn [digits2_pos]. rewrite Hd.
  cbn [PosDef.Pos.succ].
  change IntDef.Z.add with Z.add. change IntDef.Z.sub with Z.sub.
  rewrite fexp_normal by lia.
  replace (105 + (e + -51) - 53 - (e + -51))%Z with 52%Z by lia.
  cbn [shr shr_record_of_loc iter_pos shr_1 orb loc_of_shr_record
       shr_m shr_r shr_s round_nearest_even].
  replace (e + -51 + 52)%Z with (e + 1)%Z by lia.
  apply (round_tail s m (e + 1) Hd). lia.
Qed.

Lemma normalSpan_half (x : number) :
  normalSpan x ->
  Number.div x Number.two = halfOf x
  /\ Number.mul (halfOf x) Number.two = x.
Proof.
  destruct x as [sx|sx| |[|] m e]; cbn [normalSpan halfOf]; try tauto.
  intros [Hd He]. split.
  - apply div_two_exact; [exact Hd | lia].
  - rewrite mul_two_exact by (try exact Hd; lia).
    f_equal. lia.
Qed.

Lemma normalSpan_double (x : number) :
  normalSpan x ->
  Number.mul x Number.two = doubleOf x
  /\ Number.div (doubleOf x) Number.two = x.
Proof.
  destruct x as [sx|sx| |[|] m e]; cbn [normalSpan doubleOf]; try tauto.
  intros [Hd He]. split.
  - apply mul_two_exact; [exact Hd | lia].
  - rewrite div_two_exact by (try exact Hd; lia).
    f_equal. lia.
Qed.

(** Halving keeps a span below a bound it is below; doubling keeps it above
    a bound it is above. *)
Lemma half_still_below (x : number) :
  normalSpan x ->
  Number.lt x MAX_ZOOM_DELTA = true -> Number.lt (halfOf x) MAX_ZOOM_DELTA = true.
Proof.
  rewrite MAX_ZOOM_DELTA_bits.
  destruct x as [sx|sx| |[|] m e]; simpl; try tauto. intros _.
  unfold Number.lt, SFltb, SFcompare.
  destruct (Z.compare_spec e (-52)) as [->|Hlt|Hgt]; try discriminate.
  - intros _. reflexivity.
  - intros _. destruct (Z.compare_spec (e - 1) (-52)); [lia | reflexivity | lia].
Qed.

Lemma double_still_above (x : number) :
  normalSpan x ->
  Number.gt x MIN_ZOOM_DELTA = true -> Number.gt (doubleOf x) MIN_ZOOM_DELTA = true.
Proof.
  rewrite MIN_ZOOM_DELTA_bits.
  destruct x as [sx|sx| |[|] m e]; simpl; try tauto. intros _.
  unfold Number.gt, SFltb, SFcompare.
  destruct (Z.compare_spec (-59) e) as [<-|Hlt|Hgt]; try discriminate.
  - intros _. reflexivity.
  - intros _. destruct (Z.compare_spec (-59) (e + 1)); [lia | reflexivity | lia].
Qed.

Lemma setRegion_region (r : Region) (s : HomePage) :
  setRegion (region s) (setRegion r s) = s.
Proof. destruct s; reflexivity. Qed.

(** X16. On spans that are normal doubles, the zoom arithmetic does not
    round: [zoomIn] keeps the mantissa of each span and lowers its exponent
    by one, [zoomOut] raises it by one. *)
Theorem zoom_is_exact (s : HomePage) :
  normalSpan (latitudeDelta (region s)) ->
  normalSpan (longitudeDelta (region s)) ->
  (Number.gt (latitudeDelta (region s)) MIN_ZOOM_DELTA = true ->
   region (zoomIn s) =
     {| latitude := latitude (region s);
        longitude := longitude (region s);
        latitudeDelta := halfOf (latitudeDelta (region s));
        longitudeDelta := halfOf (longitudeDelta (region s)) |})
  /\ (Number.lt (latitudeDelta (region s)) MAX_ZOOM_DELTA = true ->
   region (zoomOut s) =
     {| latitude := latitude (region s);
        longitude := longitude (region s);
        latitudeDelta := doubleOf (latitudeDelta (region s));
        longitudeDelta := doubleOf (longitudeDelta (region s)) |}).
Proof.
  intros Hlat Hlon.
  destruct (normalSpan_half _ Hlat) as [Hh1 _].
  destruct (normalSpan_half _ Hlon) as [Hh2 _].
  destruct (normalSpan_double _ Hlat) as [Hd1 _].
  destruct (normalSpan_double _ Hlon) as [Hd2 _].
  split; intros H.
  - unfold zoomIn. rewrite H. simpl. rewrite Hh1, Hh2. reflexivity.
  - unfold zoomOut. rewrite H. simpl. rewrite Hd1, Hd2. reflexivity.
Qed.

Lemma zoom_is_exact_witness :
  latitudeDelta (region (zoomIn initialState))
  = S754_finite false 6643710170296956 (-56 - 1)
  /\ longitudeDelta (region (zoomOut initialState))
     = S754_finite false 6067249417993532 (-57 + 1).
Proof.
  assert (Hlat : normalSpan (latitudeDelta (region initialState)))
    by (vm_compute; split; [reflexivity | split; discriminate]).
  assert (Hlon : normalSpan (longitudeDelta (region initialState)))
    by (vm_compute; split; [reflexivity | split; discriminate]).
  destruct (zoom_is_exact initialState Hlat Hlon) as [Hin Hout].
  split.
  - rewrite Hin by (vm_compute; reflexivity). vm_compute. reflexivity.
  - rewrite Hout by (vm_compute; reflexivity). vm_compute. reflexivity.
Defined.

(** X17. Zooming in and zooming out undo each other.  On spans that are
    normal doubles, with [latitudeDelta] strictly between [MIN_ZOOM_DELTA]
    and [MAX_ZOOM_DELTA], a zoom-in followed by a zoom-out, and a zoom-out
    followed by a zoom-in, give back the state they started from, bit for
    bit. *)
Theorem zoom_round_trip (s : HomePage) :
  normalSpan (latitudeDelta (region s)) ->
  normalSpan (longitudeDelta (region s)) ->
  Number.gt (latitudeDelta (region s)) MIN_ZOOM_DELTA = true ->
  Number.lt (latitudeDelta (region s)) MAX_ZOOM_DELTA = true ->
  zoomOut (zoomIn s) = s /\ zoomIn (zoomOut s) = s.
Proof.
  intros Hlat Hlon Hgt Hlt.
  destruct (normalSpan_half _ Hlat) as [Hh1 Hb1].
  destruct (normalSpan_half _ Hlon) as [Hh2 Hb2].
  destruct (normalSpan_double _ Hlat) as [Hd1 Hc1].
  destruct (normalSpan_double _ Hlon) as [Hd2 Hc2].
  pose proof (half_still_below _ Hlat Hlt) as Hlt'.
  pose proof (double_still_above _ Hlat Hgt) as Hgt'.
  split.
  - unfold zoomIn. rewrite Hgt. unfold zoomOut. simpl.
    rewrite Hh1, Hh2, Hlt', Hb1, Hb2.
    destruct s as [l m [a b c d] p t w xs xn ws wn]. reflexivity.
  - unfold zoomOut. rewrite Hlt. unfold zoomIn. simpl.
    rewrite Hd1, Hd2, Hgt', Hc1, Hc2.
    destruct s as [l m [a b c d] p t w xs xn ws wn]. reflexivity.
Qed.

Lemma zoom_round_trip_witness :
  zoomOut (zoomIn initialState) = initialState
  /\ zoomIn (zoomOut initialState) = initialState.
Proof.
  apply (zoom_round_trip initialState).
  - vm_compute. split; [reflexivity | split; discriminate].
  - vm_compute. split; [reflexivity | split; discriminate].
  - vm_compute. reflexivity.
  - vm_compute. reflexivity.
Defined.

(** ** Zoom after a fix, and past the bounds *)

(** X18. A fix zooms the map in as far as the buttons go: on the region a
    fix leaves, the zoom-in button is disabled and [zoomIn] does nothing,
    the zoom-out button is enabled, and one [zoomOut] followed by one
    [zoomIn] is back on the region of the fix. *)
Theorem fix_region_is_zoomed_in (s : HomePage) (loc : LocationObject) :
  region s = centeredOn loc ->
  zoomInDisabled s = true
  /\ zoomIn s = s
  /\ zoomOutDisabled s = false
  /\ latitudeDelta (region (zoomOut s)) = doubleOf FIX_DELTA
  /\ zoomIn (zoomOut s) = s.
Proof.
  intros Hr.
  assert (Hlat : latitudeDelta (region s) = FIX_DELTA) by (rewrite Hr; reflexivity).
  assert (Hlon : longitudeDelta (region s) = FIX_DELTA) by (rewrite Hr; reflexivity).
  assert (Hn : normalSpan FIX_DELTA)
    by (vm_compute; split; [reflexivity | split; discriminate]).
  destruct (normalSpan_double _ Hn) as [Hd Hc].
  unfold zoomInDisabled, zoomOutDisabled, zoomIn, zoomOut.
  rewrite Hlat, Hlon.
  change (Number.le FIX_DELTA MIN_ZOOM_DELTA) with true.
  change (Number.gt FIX_DELTA MIN_ZOOM_DELTA) with false.
  change (Number.ge FIX_DELTA MAX_ZOOM_DELTA) with false.
  change (Number.lt FIX_DELTA MAX_ZOOM_DELTA) with true.
  cbn [region setRegion latitudeDelta longitudeDelta latitude longitude].
  rewrite Hd.
  change (Number.gt (doubleOf FIX_DELTA) MIN_ZOOM_DELTA) with true.
  cbn iota. rewrite Hc.
  repeat split.
  destruct s as [l m [a b c d] p t w xs xn ws wn].
  simpl in Hlat, Hlon. subst c d. reflexivity.
Qed.

Lemma fix_region_is_zoomed_in_witness :
  zoomInDisabled (mount granted) = true
  /\ zoomIn (zoomOut (mount granted)) = mount granted.
Proof.
  destruct (fix_region_is_zoomed_in (mount granted) (toLocationObject position1)
              eq_refl) as (H1 & _ & _ & _ & H2).
  split; assumption.
Defined.

Lemma compare_shift (m m' : positive) (e e' : Z) :
  SFcompare (S754_finite false m (e + 1)) (S754_finite false m' e')
  = SFcompare (S754_finite false m e) (S754_finite false m' (e' - 1)).
Proof.
  unfold SFcompare.
  destruct (Z.compare_spec (e + 1) e'), (Z.compare_spec e (e' - 1));
    try reflexivity; lia.
Qed.

(** X19. The bounds are tested before the step, not after it: a zoom-out
    from a [latitudeDelta] between half of [MAX_ZOOM_DELTA] and
    [MAX_ZOOM_DELTA] ends above [MAX_ZOOM_DELTA], and a zoom-in from a
    [latitudeDelta] between [MIN_ZOOM_DELTA] and its double ends below
    [MIN_ZOOM_DELTA]; the button of that direction is then disabled. *)
Theorem zoom_passes_bounds (s : HomePage) :
  normalSpan (latitudeDelta (region s)) ->
  normalSpan (longitudeDelta (region s)) ->
  (Number.lt (latitudeDelta (region s)) MAX_ZOOM_DELTA = true ->
   Number.gt (latitudeDelta (region s)) (halfOf MAX_ZOOM_DELTA) = true ->
   Number.gt (latitudeDelta (region (zoomOut s))) MAX_ZOOM_DELTA = true
   /\ zoomOutDisabled (zoomOut s) = true)
  /\ (Number.gt (latitudeDelta (region s)) MIN_ZOOM_DELTA = true ->
   Number.lt (latitudeDelta (region s)) (doubleOf MIN_ZOOM_DELTA) = true ->
   Number.lt (latitudeDelta (region (zoomIn s))) MIN_ZOOM_DELTA = true
   /\ zoomInDisabled (zoomIn s) = true).
Proof.
  intros Hlat Hlon.
  assert (Hin : Number.gt (latitudeDelta (region s)) MIN_ZOOM_DELTA = true ->
                latitudeDelta (region (zoomIn s))
                = halfOf (latitudeDelta (region s))).
  { intros H. unfold zoomIn. rewrite H. simpl.
    apply (normalSpan_half _ Hlat). }
  assert (Hout : Number.lt (latitudeDelta (region s)) MAX_ZOOM_DELTA = true ->
                 latitudeDelta (region (zoomOut s))
                 = doubleOf (latitudeDelta (region s))).
  { intros H. unfold zoomOut. rewrite H. simpl.
    apply (normalSpan_double _ Hlat). }
  unfold zoomInDisabled, zoomOutDisabled.
  split.
  - intros Hlt Hgt. rewrite (Hout Hlt).
    assert (H : Number.gt (doubleOf (latitudeDelta (region s))) MAX_ZOOM_DELTA = true).
    { revert Hgt. rewrite MAX_ZOOM_DELTA_bits.
      destruct (latitudeDelta (region s)) as [sx|sx| |[|] m e];
        cbn [normalSpan] in Hlat; try tauto.
      unfold Number.gt, SFltb, halfOf, doubleOf.
      rewrite !(SFcompare_antisym (S754_finite false m _)).
      rewrite compare_shift. intros H. exact H. }
    split; [exact H |].
    unfold Number.ge, SFleb. unfold Number.gt, SFltb in H.
    destruct (SFcompare MAX_ZOOM_DELTA _) as [[ | | ]|]; congruence.
  - intros Hgt Hlt. rewrite (Hin Hgt).
    assert (H : Number.lt (halfOf (latitudeDelta (region s))) MIN_ZOOM_DELTA = true).
    { revert Hlt. rewrite MIN_ZOOM_DELTA_bits.
      destruct (latitudeDelta (region s)) as [sx|sx| |[|] m e];
        cbn [normalSpan] in Hlat; try tauto.
      unfold Number.lt, SFltb, halfOf, doubleOf.
      replace e with (e - 1 + 1)%Z at 1 by lia.
      rewrite compare_shift.
      replace (-59 + 1 - 1)%Z with (-59)%Z by lia.
      intros H. exact H. }
    split; [exact H |].
    unfold Number.le, SFleb. unfold Number.lt, SFltb in H.
    destruct (SFcompare _ MIN_ZOOM_DELTA) as [[ | | ]|]; congruence.
Qed.

Lemma zoom_passes_bounds_witness :
  Number.gt (latitudeDelta
               (region (zoomOut (run [ZoomOut; ZoomOut; ZoomOut; ZoomOut;
                                      ZoomOut; ZoomOut; ZoomOut]
                                     (mount granted)))))
            MAX_ZOOM_DELTA = true
  /\ Number.lt (latitudeDelta
                  (region (zoomIn (run [ZoomIn; ZoomIn; ZoomIn] initialState))))
               MIN_ZOOM_DELTA = true.
Proof.
  split.
  - apply (zoom_passes_bounds
             (run [ZoomOut; ZoomOut; ZoomOut; ZoomOut; ZoomOut; ZoomOut; ZoomOut]
                  (mount granted)));
      vm_compute; first [reflexivity | split; [reflexivity | split; discriminate]].
  - apply (zoom_passes_bounds (run [ZoomIn; ZoomIn; ZoomIn] initialState));
      vm_compute; first [reflexivity | split; [reflexivity | split; discriminate]].
Defined.

Lemma switch_from_expo_keeps_subscription_witness :
  exists s',
    step (ToggleProvider granted) trackingOnPrimary = Normal s'
    /\ expoSubscriptions s' = expoSubscriptions trackingOnPrimary
    /\ rnWatches s' = [(0, rnWatchOptions)]
    /\ watchIdRef s' = Some (WatchID 0).
Proof.
  apply (switch_from_expo_keeps_subscription granted trackingOnPrimary 0);
    reflexivity.
Defined.
